(** * tab_bar.py: a custom kitty tab bar, embedded and verified

    The development follows [tab_bar.py] top to bottom: the Python
    primitives the program relies on, the pathlib paths of [get_wd], the
    host's drawing surface, [Cell], the four text providers, the center
    layout strategist, the section drawers and the entry point [draw_tab].

    Python strings are sequences of code points; [len] counts code points.
    The icons of the program are private-use glyphs, so a string is a list
    of code points rather than a list of bytes. *)

From Stdlib Require Import ZArith List Bool Lia String Ascii.
Import ListNotations.
Open Scope Z_scope.

(* ------------------------------------------------------------------ *)
(** ** Python primitives *)
(* ------------------------------------------------------------------ *)
Module Py.

Definition str := list N.

(** ASCII literals of the source, one code point per character. *)
Definition lit (s : string) : str := map N_of_ascii (list_ascii_of_string s).

Definition len {A : Type} (l : list A) : Z := Z.of_nat (List.length l).

Definition str_eqb (a b : str) : bool :=
  if list_eq_dec N.eq_dec a b then true else false.

Inductive exn : Type :=
| IndexError
| TypeError
| ValueError
| AttributeError.

(** What a call does: it returns, it raises, or the model ran out of
    fuel before the call came back. *)
Inductive outcome (A : Type) : Type :=
| Ret (a : A)
| Raise (e : exn)
| OutOfFuel.
Arguments Ret {A} a.
Arguments Raise {A} e.
Arguments OutOfFuel {A}.

Definition bind {A B : Type} (m : outcome A) (k : A -> outcome B) : outcome B :=
  match m with
  | Ret a => k a
  | Raise e => Raise e
  | OutOfFuel => OutOfFuel
  end.

(** [l[i]]: a negative index counts from the end, anything out of range
    raises IndexError. *)
Definition index {A : Type} (l : list A) (i : Z) : outcome A :=
  let j := if i <? 0 then len l + i else i in
  if (j <? 0) || (len l <=? j) then Raise IndexError
  else match nth_error l (Z.to_nat j) with
       | Some a => Ret a
       | None => Raise IndexError
       end.

(** Slice bounds are clamped into [0, len]. *)
Definition clamp {A : Type} (l : list A) (i : Z) : nat :=
  Z.to_nat (Z.min (len l) (Z.max 0 (if i <? 0 then len l + i else i))).

(** [l[i:]] *)
Definition slice_from {A : Type} (l : list A) (i : Z) : list A :=
  skipn (clamp l i) l.

(** [l[i:j]] *)
Definition slice {A : Type} (l : list A) (i j : Z) : list A :=
  firstn (clamp l j - clamp l i) (skipn (clamp l i) l).

(** [sep.join(xs)] *)
Fixpoint join (sep : str) (xs : list str) : str :=
  match xs with
  | [] => []
  | [a] => a
  | a :: rest => a ++ sep ++ join sep rest
  end.

(** [s.split(c)] for a one-character separator. *)
Fixpoint split (c : N) (s : str) : list str :=
  match s with
  | [] => [[]]
  | a :: rest =>
      if N.eqb a c then [] :: split c rest
      else match split c rest with
           | [] => [[a]]
           | w :: ws => (a :: w) :: ws
           end
  end.

(** [s * n] for a string [s]; a count below one gives the empty string. *)
Fixpoint repeat_str (s : str) (n : nat) : str :=
  match n with
  | O => []
  | S k => s ++ repeat_str s k
  end.

(** [sum(xs)] over integers. *)
Definition sum (xs : list Z) : Z := fold_left Z.add xs 0.

(** Evaluate [f] on every element in order; the first call that does not
    return ends the whole evaluation. *)
Fixpoint mapM {A B : Type} (f : A -> outcome B) (xs : list A) : outcome (list B) :=
  match xs with
  | [] => Ret []
  | a :: rest =>
      bind (f a) (fun b => bind (mapM f rest) (fun bs => Ret (b :: bs)))
  end.

(** [enumerate(xs)] *)
Fixpoint enumerate_from {A : Type} (i : Z) (xs : list A) : list (Z * A) :=
  match xs with
  | [] => []
  | a :: rest => (i, a) :: enumerate_from (i + 1) rest
  end.
Definition enumerate {A : Type} (xs : list A) : list (Z * A) := enumerate_from 0 xs.

(** [str(n)] for an integer. *)
Definition digit (d : Z) : N := Z.to_N (48 + d).
Fixpoint digits (fuel : nat) (n : Z) (acc : str) : str :=
  match fuel with
  | O => acc
  | S k => if n <? 10 then digit n :: acc
           else digits k (n / 10) (digit (n mod 10) :: acc)
  end.
Definition str_of_int (n : Z) : str :=
  if n <? 0 then 45%N :: digits (S (Z.to_nat (Z.log2 (- n)))) (- n) []
  else digits (S (Z.to_nat (Z.log2 n))) n [].

End Py.
Import Py.

Notation "x <- m ;; k" := (Py.bind m (fun x => k))
  (at level 61, m at next level, right associativity).

(* ------------------------------------------------------------------ *)
(** ** pathlib: the pure POSIX paths that [get_wd] works on

    Python's standard library, as it behaves on the operations that
    [get_wd] calls: construction from a string, [parts],
    [is_relative_to], [relative_to], [==] and [/]. *)
(* ------------------------------------------------------------------ *)
Module Pathlib.

(** A path is its root ([/], [//] or none) and its segments. *)
Record Path : Type := mkPath { root : str; segs : list str }.

Definition slash : N := 47%N.
Definition dot : N := 46%N.

Fixpoint leading_slashes (s : str) : nat :=
  match s with
  | c :: rest => if N.eqb c slash then S (leading_slashes rest) else O
  | [] => O
  end.

(** Exactly two leading slashes are kept as the root [//]; one, or three
    and more, collapse to [/]. *)
Definition parse_root (s : str) : str :=
  match leading_slashes s with
  | O => []
  | 2%nat => [slash; slash]
  | _ => [slash]
  end.

Definition keep_segment (x : str) : bool :=
  negb (str_eqb x []) && negb (str_eqb x [dot]).

(** [Path(s)]: empty segments and [.] segments are dropped, [..] is kept. *)
Definition of_str (s : str) : Path :=
  mkPath (parse_root s) (filter keep_segment (split slash s)).

(** [p.parts] *)
Definition parts (p : Path) : list str :=
  match root p with
  | [] => segs p
  | r => r :: segs p
  end.

Definition list_str_eqb (a b : list str) : bool :=
  if list_eq_dec (list_eq_dec N.eq_dec) a b then true else false.

(** [p == q] *)
Definition eqb (p q : Path) : bool :=
  str_eqb (root p) (root q) && list_str_eqb (segs p) (segs q).

Fixpoint is_prefix (a b : list str) : bool :=
  match a, b with
  | [], _ => true
  | x :: a', y :: b' => str_eqb x y && is_prefix a' b'
  | _ :: _, [] => false
  end.

(** [p.is_relative_to(other)]: [other] is [p] or one of its parents. *)
Definition is_relative_to (p other : Path) : bool :=
  str_eqb (root p) (root other) && is_prefix (segs other) (segs p).

(** [p.relative_to(other)] *)
Definition relative_to (p other : Path) : outcome Path :=
  if is_relative_to p other
  then Ret (mkPath [] (skipn (List.length (segs other)) (segs p)))
  else Raise ValueError.

(** [p / q] *)
Definition div (p q : Path) : Path :=
  match root q with
  | [] => mkPath (root p) (segs p ++ segs q)
  | _ => q
  end.

End Pathlib.

(* ------------------------------------------------------------------ *)
(** ** The host: tab metadata, environment and drawing surface *)
(* ------------------------------------------------------------------ *)

(** Modelled from the spec: the tab metadata of the host (kitty's
    TabBarData), which is not part of this repository; the fields are the
    ones the program reads. *)
Record TabBarData : Type := mkTab {
  title : str;
  tab_id : Z;
  is_active : bool;
  session_name : str
}.

(** Modelled from the spec: what the program reads from its surroundings,
    none of it part of this repository. The environment variable HOME
    (absent when unset), the working directory and the executable of a
    tab's active pane as the host's accessor gives them for a tab id (both
    strings, empty when the host has nothing to report), the wall clock,
    and the handle that the timer registration hands back. *)
Record Host : Type := mkHost {
  HOME : option str;
  active_wd : Z -> str;
  active_exe : Z -> str;
  now_hour : Z;
  now_minute : Z;
  timer_handle : Z
}.

(** The colors, resolved once from the host's options:
    color19, color7, color3, color5, color4, color4. *)
Record Palette : Type := mkPalette {
  BG : Z;
  FG : Z;
  COLOR_1 : Z;
  COLOR_2 : Z;
  COLOR_3 : Z;
  COLOR_4 : Z
}.

Record Cursor : Type := mkCursor {
  x : Z;
  fg : Z;
  bg : Z;
  bold : bool;
  dim : bool;
  italic : bool
}.

(** A glyph as it was written: its column, its code point and the cursor
    styling in force. *)
Record Glyph : Type := mkGlyph {
  g_col : Z;
  g_char : N;
  g_fg : Z;
  g_bg : Z;
  g_bold : bool
}.

(** Modelled from the spec: the drawing surface of the host, which is not
    part of this repository: a cursor with a column and styling, a total
    width [columns], and [screen.draw(text)], which writes the glyphs of
    [text] at the cursor and advances the cursor. Every code point is taken
    to occupy one column; [drawn] keeps every glyph written, oldest
    first. *)
Record Screen : Type := mkScreen {
  columns : Z;
  cursor : Cursor;
  drawn : list Glyph
}.

Definition set_x (s : Screen) (v : Z) : Screen :=
  let c := cursor s in
  mkScreen (columns s) (mkCursor v (fg c) (bg c) (bold c) (dim c) (italic c)) (drawn s).
Definition set_fg (s : Screen) (v : Z) : Screen :=
  let c := cursor s in
  mkScreen (columns s) (mkCursor (x c) v (bg c) (bold c) (dim c) (italic c)) (drawn s).
Definition set_bg (s : Screen) (v : Z) : Screen :=
  let c := cursor s in
  mkScreen (columns s) (mkCursor (x c) (fg c) v (bold c) (dim c) (italic c)) (drawn s).
Definition set_bold (s : Screen) (v : bool) : Screen :=
  let c := cursor s in
  mkScreen (columns s) (mkCursor (x c) (fg c) (bg c) v (dim c) (italic c)) (drawn s).
Definition set_dim (s : Screen) (v : bool) : Screen :=
  let c := cursor s in
  mkScreen (columns s) (mkCursor (x c) (fg c) (bg c) (bold c) v (italic c)) (drawn s).
Definition set_italic (s : Screen) (v : bool) : Screen :=
  let c := cursor s in
  mkScreen (columns s) (mkCursor (x c) (fg c) (bg c) (bold c) (dim c) v) (drawn s).

Definition put (s : Screen) (ch : N) : Screen :=
  let c := cursor s in
  mkScreen (columns s)
           (mkCursor (x c + 1) (fg c) (bg c) (bold c) (dim c) (italic c))
           (drawn s ++ [mkGlyph (x c) ch (fg c) (bg c) (bold c)]).

(** [screen.draw(text)] *)
Definition screen_draw (s : Screen) (text : str) : Screen := fold_left put text s.

(** Columns written between two states of the surface. *)
Definition written (before after : Screen) : Z := len (drawn after) - len (drawn before).

(* ------------------------------------------------------------------ *)
(** ** Cell: a single drawable block in the tab bar *)
(* ------------------------------------------------------------------ *)

(** A text provider reads its surroundings and answers with a label, with
    the empty string (icon only) or with None (hidden). *)
Definition TextFn : Type := Host -> Z -> option TabBarData -> outcome (option str).

Module Cell.

Record t : Type := mk {
  tab : option TabBarData;
  fg : Z;
  bg : Z;
  color : Z;
  icon : str;
  text_fn : TextFn;
  border : str * str;
  separator : str;
  text_length_overhead : Z
}.

Definition default_separator : str := [57520%N].
Definition default_border : str * str := ([57526%N], [57524%N]).

(** [Cell.__init__] *)
Definition init (icon : str) (text_fn : TextFn) (tab : option TabBarData)
           (bg fg color : Z) (separator : str) (border : str * str) : t :=
  mk tab fg bg color icon text_fn border separator
     (len (fst border ++ snd border ++ separator ++ icon) + 1).

Definition draw (self : t) (h : Host) (screen : Screen) (max_size : Z) : outcome Screen :=
  text <- text_fn self h (max_size - text_length_overhead self) (tab self) ;;
  match text with
  | None => Ret screen
  | Some text =>
      let screen := set_dim screen false in
      let screen := set_bold screen false in
      let screen := set_italic screen false in
      (* left border *)
      let screen := set_bg screen 0 in
      let screen := set_fg screen (color self) in
      let screen := screen_draw screen (fst (border self)) in
      (* icon *)
      let screen := set_bg screen (color self) in
      let screen := set_fg screen (bg self) in
      let screen := set_bold screen true in
      let screen := screen_draw screen (icon self) in
      let screen := set_bold screen false in
      if str_eqb text [] then
        let screen := set_bg screen 0 in
        let screen := set_fg screen (color self) in
        Ret (screen_draw screen (snd (border self)))
      else
        let screen := set_bg screen (bg self) in
        let screen := set_fg screen (color self) in
        let screen := screen_draw screen (separator self) in
        let screen := set_fg screen (fg self) in
        let screen := screen_draw screen (lit " " ++ text) in
        let screen := set_fg screen (bg self) in
        let screen := set_bg screen 0 in
        Ret (screen_draw screen (snd (border self)))
  end.

Definition length (self : t) (h : Host) (max_size : Z) : outcome Z :=
  text <- text_fn self h (max_size - text_length_overhead self) (tab self) ;;
  match text with
  | None => Ret 0
  | Some text =>
      if str_eqb text [] then
        Ret (len (icon self ++ fst (border self) ++ snd (border self)))
      else
        Ret (len text + text_length_overhead self)
  end.

End Cell.

(* ------------------------------------------------------------------ *)
(** ** Text providers *)
(* ------------------------------------------------------------------ *)

Definition MAX_LENGTH_PATH : Z := 3.

Definition folder_icon : str := [61563%N; 32%N].
Definition time_icon : str := [985428%N; 32%N].
Definition session_icon : str := [61728%N; 32%N].

(** Reading an attribute of [tab]; the default [tab] of a Cell is None. *)
Definition attr (tab : option TabBarData) : outcome TabBarData :=
  match tab with
  | Some t => Ret t
  | None => Raise AttributeError
  end.

Definition b2z (b : bool) : Z := if b then 1 else 0.

(** The [while parts_cnt != len(parts)] loop of [get_wd]. It answers with
    the path that fits, or with None when the loop is left without a
    return. Each iteration costs one unit of fuel. *)
Fixpoint get_wd_loop (fuel : nat) (parts : list str) (compressed : bool)
         (max_size parts_cnt : Z) : outcome (option str) :=
  if parts_cnt =? len parts then Ret None
  else match fuel with
       | O => OutOfFuel
       | S k =>
           let wd := join (lit "/")
                          (slice parts 0 (1 + b2z compressed) ++ slice_from parts parts_cnt) in
           if len wd <=? max_size then Ret (Some wd)
           else get_wd_loop k parts compressed max_size (parts_cnt + 1)
       end.

(** The path of [get_wd] after the home prefix is replaced with [~]. *)
Definition home_relative (h : Host) (tab : TabBarData) : outcome Pathlib.Path :=
  let wd := Pathlib.of_str (active_wd h (tab_id tab)) in
  home <- match HOME h with
          | Some s => Ret (Pathlib.of_str s)
          | None => Raise TypeError
          end ;;
  if Pathlib.is_relative_to wd home then
    wd <- Pathlib.relative_to wd home ;;
    if Pathlib.eqb wd home then Ret (Pathlib.of_str (lit "~"))
    else Ret (Pathlib.div (Pathlib.of_str (lit "~")) wd)
  else Ret wd.

(** The segments that [get_wd] joins, and whether the middle was cut. *)
Definition compress (parts : list str) : outcome (list str * bool) :=
  if MAX_LENGTH_PATH <? len parts then
    p0 <- index parts 0 ;;
    Ret ([p0; lit ".."] ++ slice_from parts (- MAX_LENGTH_PATH), true)
  else Ret (parts, false).

Definition get_wd (fuel : nat) : TextFn := fun h max_size tab =>
  tab <- attr tab ;;
  wd <- home_relative h tab ;;
  pc <- compress (Pathlib.parts wd) ;;
  let '(parts, compressed) := pc in
  let parts_cnt := 1 + b2z compressed in
  r <- get_wd_loop fuel parts compressed max_size parts_cnt ;;
  match r with
  | Some wd => Ret (Some wd)
  | None =>
      last <- index parts (-1) ;;
      if len last <=? max_size then Ret (Some last) else Ret None
  end.

(** [strftime("%H:%M")] *)
Definition strftime_HM (hour minute : Z) : str :=
  [digit (hour / 10); digit (hour mod 10); 58%N; digit (minute / 10); digit (minute mod 10)].

Definition get_time : TextFn := fun h max_size tab =>
  if max_size <? 5 then Ret None
  else Ret (Some (strftime_HM (now_hour h) (now_minute h))).

Definition get_tab : TextFn := fun h max_size tab =>
  tab <- attr tab ;;
  c <- index (title tab) 0 ;;
  let text := if N.eqb c 35%N then slice_from (title tab) 1
              else active_exe h (tab_id tab) in
  if max_size <=? len text then Ret (Some [])
  else Ret (Some text).

Definition get_session : TextFn := fun h max_size tab =>
  tab <- attr tab ;;
  let text := session_name tab in
  let text := if str_eqb text [] then lit "none" else text in
  if len text <=? max_size then Ret (Some text)
  else if 3 <=? max_size then Ret (Some (slice text 0 3))
  else Ret None.

Definition get_tab_cell (pal : Palette) (tab : TabBarData) : Cell.t :=
  let color := if is_active tab then COLOR_2 pal else COLOR_1 pal in
  Cell.init (str_of_int (tab_id tab)) get_tab (Some tab) (BG pal) (FG pal) color
            Cell.default_separator Cell.default_border.

(* ------------------------------------------------------------------ *)
(** ** Center layout *)
(* ------------------------------------------------------------------ *)

(** The module-level variables [center], [active_index] and [timer_id]. *)
Record Globals : Type := mkGlobals {
  center : list Cell.t;
  active_index : Z;
  timer_id : option Z
}.

(** The state the module is loaded with. *)
Definition initial_globals : Globals := mkGlobals [] 1 None.

Inductive CenterStrategy : Type :=
| EXPAND_ALL
| EXPAND_ACTIVE
| NO_EXPAND
| SHOW_ACTIVE
| SHOW_ACTIVE_NO_EXPAND.

(** The [for index, cell in enumerate(center)] loop of the second try. *)
Fixpoint expand_active_length (h : Host) (cols active_index length : Z)
         (cells : list (Z * Cell.t)) : outcome Z :=
  match cells with
  | [] => Ret length
  | (index, cell) :: rest =>
      l <- (if index =? active_index then Cell.length cell h cols
            else Cell.length cell h 0) ;;
      expand_active_length h cols active_index (length + l) rest
  end.

Definition center_strategy (h : Host) (g : Globals) (screen : Screen)
  : outcome (CenterStrategy * Z) :=
  let center := center g in
  let active_index := active_index g in
  let n_cells := len center in
  (* all tabs fully expanded *)
  ls <- mapM (fun x => Cell.length x h (columns screen)) center ;;
  let length := n_cells - 1 + sum ls in
  if length <? columns screen then Ret (EXPAND_ALL, length) else
  (* only the active tab expanded *)
  length <- expand_active_length h (columns screen) active_index (n_cells - 1)
                                 (enumerate center) ;;
  if length <? columns screen then Ret (EXPAND_ACTIVE, length) else
  (* all tabs icon-only *)
  ls <- mapM (fun x => Cell.length x h 0) center ;;
  let length := n_cells - 1 + sum ls in
  if length <? columns screen then Ret (NO_EXPAND, length) else
  (* only the active tab, with text *)
  cell <- index center active_index ;;
  length <- Cell.length cell h (columns screen) ;;
  if length <? columns screen then Ret (SHOW_ACTIVE, length) else
  (* only the active tab, icon-only *)
  cell <- index center active_index ;;
  length <- Cell.length cell h 0 ;;
  Ret (SHOW_ACTIVE_NO_EXPAND, length).

(** The loop shared by the first three cases of [draw_center]; [budget]
    gives the width each cell is drawn with. *)
Fixpoint draw_cells (h : Host) (budget : Z -> Z) (screen : Screen)
         (cells : list (Z * Cell.t)) : outcome Screen :=
  match cells with
  | [] => Ret screen
  | (idx, cell) :: rest =>
      let screen := if negb (idx =? 0) then screen_draw screen (lit " ") else screen in
      screen <- Cell.draw cell h screen (budget idx) ;;
      draw_cells h budget screen rest
  end.

Definition draw_center (h : Host) (g : Globals) (screen : Screen)
           (strategy : CenterStrategy) : outcome Screen :=
  let cols := columns screen in
  match strategy with
  | EXPAND_ALL =>
      draw_cells h (fun _ => cols) screen (enumerate (center g))
  | EXPAND_ACTIVE =>
      draw_cells h (fun idx => cols * b2z (idx =? active_index g)) screen
                 (enumerate (center g))
  | NO_EXPAND =>
      draw_cells h (fun _ => 0) screen (enumerate (center g))
  | SHOW_ACTIVE =>
      cell <- index (center g) (active_index g) ;;
      Cell.draw cell h screen cols
  | SHOW_ACTIVE_NO_EXPAND =>
      cell <- index (center g) (active_index g) ;;
      Cell.draw cell h screen 0
  end.

(* ------------------------------------------------------------------ *)
(** ** Section drawers *)
(* ------------------------------------------------------------------ *)

Definition draw_left (pal : Palette) (fuel : nat) (h : Host) (g : Globals)
           (screen : Screen) (max_length : Z) : outcome Screen :=
  active <- index (center g) (active_index g) ;;
  let cell := Cell.init folder_icon (get_wd fuel) (Cell.tab active)
                        (BG pal) (FG pal) (COLOR_4 pal)
                        Cell.default_separator Cell.default_border in
  Cell.draw cell h screen max_length.

Definition draw_right (pal : Palette) (h : Host) (g : Globals) (screen : Screen)
  : outcome Screen :=
  let max_size := columns screen - x (cursor screen) in
  let time_cell := Cell.init time_icon get_time None (BG pal) (FG pal) (COLOR_3 pal)
                             Cell.default_separator Cell.default_border in
  active <- index (center g) (active_index g) ;;
  let session_cell := Cell.init session_icon get_session (Cell.tab active)
                                (BG pal) (FG pal) (COLOR_3 pal)
                                Cell.default_separator Cell.default_border in
  total_length <- Cell.length time_cell h max_size ;;
  session_length <- Cell.length session_cell h (max_size - total_length - 1) ;;
  let total_length := if negb (session_length =? 0)
                      then total_length + (1 + session_length) else total_length in
  let offset_length := max_size - total_length in
  let screen := screen_draw screen (repeat_str (lit " ") (Z.to_nat offset_length)) in
  screen <- (if negb (session_length =? 0) then
               screen <- Cell.draw session_cell h screen session_length ;;
               Ret (screen_draw screen (lit " "))
             else Ret screen) ;;
  Cell.draw time_cell h screen max_size.

(* ------------------------------------------------------------------ *)
(** ** draw_tab: kitty's entry point, called once per tab *)
(* ------------------------------------------------------------------ *)

Definition center_start_position (cols length : Z) : Z := (cols - length) / 2.

(** The body of [if is_last:] up to, and without, the reset of [center]. *)
Definition render_bar (pal : Palette) (fuel : nat) (h : Host) (g : Globals)
           (screen : Screen) : outcome Screen :=
  sl <- center_strategy h g screen ;;
  let '(strategy, length) := sl in
  let start := center_start_position (columns screen) length in
  screen <- draw_left pal fuel h g screen (start - 1) ;;
  let screen := set_x screen start in
  screen <- draw_center h g screen strategy ;;
  let screen := screen_draw screen (lit " ") in
  draw_right pal h g screen.

(** The module-level variables as [draw_tab] leaves them before it looks
    at [is_last]: the timer is started on the first call, the position of
    an active tab is recorded, the cell of the tab is appended. *)
Definition appended (pal : Palette) (h : Host) (g : Globals)
           (tab : TabBarData) (index : Z) : Globals :=
  mkGlobals (center g ++ [get_tab_cell pal tab])
            (if is_active tab then index - 1 else active_index g)
            (match timer_id g with
             | None => Some (timer_handle h)
             | Some id => Some id
             end).

(** [draw_tab]. The arguments the body never reads (draw_data, before,
    max_title_length, extra_data) are left out. The module-level variables
    are threaded through; what was assigned before an exception stays
    assigned. *)
Definition draw_tab (pal : Palette) (fuel : nat) (h : Host) (g : Globals)
           (screen : Screen) (tab : TabBarData) (index : Z) (is_last : bool)
  : Globals * outcome (Screen * Z) :=
  let g := appended pal h g tab index in
  if is_last then
    match render_bar pal fuel h g screen with
    | Ret screen =>
        (mkGlobals [] (active_index g) (timer_id g), Ret (screen, x (cursor screen)))
    | Raise e => (g, Raise e)
    | OutOfFuel => (g, OutOfFuel)
    end
  else (g, Ret (screen, x (cursor screen))).

(* ================================================================== *)
(** * Vocabulary of the properties *)
(* ================================================================== *)

(** The code points on the surface, oldest first. *)
Definition chars (s : Screen) : str := map g_char (drawn s).

(** The columns of the glyphs on the surface, oldest first. *)
Definition glyph_columns (s : Screen) : list Z := map g_col (drawn s).

(** [n] consecutive columns from [start] on. *)
Fixpoint run (start : Z) (n : nat) : list Z :=
  match n with
  | O => []
  | S k => start :: run (start + 1) k
  end.

(** [s'] is [s] after some glyphs were written from the cursor on, one
    column each, the cursor ending right after them. *)
Definition written_on (s s' : Screen) : Prop :=
  exists n : nat,
    glyph_columns s' = glyph_columns s ++ run (x (cursor s)) n
    /\ x (cursor s') = x (cursor s) + Z.of_nat n
    /\ columns s' = columns s.

(** The glyphs a cell writes for each kind of answer of its provider. *)
Definition rendering (c : Cell.t) (r : option str) : str :=
  match r with
  | None => []
  | Some [] => fst (Cell.border c) ++ Cell.icon c ++ snd (Cell.border c)
  | Some text =>
      fst (Cell.border c) ++ Cell.icon c ++ Cell.separator c
          ++ (lit " " ++ text) ++ snd (Cell.border c)
  end.

(** The per-cell widths of Expand-Active: the active cell at full budget,
    every other cell at zero budget. *)
Fixpoint active_mix (active_index i : Z) (full zero : list Z) : list Z :=
  match full, zero with
  | f :: full', z :: zero' =>
      (if i =? active_index then f else z) :: active_mix active_index (i + 1) full' zero'
  | _, _ => []
  end.

(** First candidate whose width is strictly below [cols]; [fallback] when
    there is none. *)
Fixpoint first_fit (cols : Z) (candidates : list (CenterStrategy * Z))
         (fallback : CenterStrategy * Z) : CenterStrategy * Z :=
  match candidates with
  | [] => fallback
  | (strategy, width) :: rest =>
      if width <? cols then (strategy, width) else first_fit cols rest fallback
  end.

(** The five strategies in their order of preference, each with its total
    width; [full] and [zero] are the lengths of the cells at full and at
    zero budget. The last one is the fallback and has no fit test. *)
Definition preference (n active_index : Z) (full zero : list Z)
  : list (CenterStrategy * Z) * (CenterStrategy * Z) :=
  ([ (EXPAND_ALL, n - 1 + sum full);
     (EXPAND_ACTIVE, n - 1 + sum (active_mix active_index 0 full zero));
     (NO_EXPAND, n - 1 + sum zero);
     (SHOW_ACTIVE, nth (Z.to_nat active_index) full 0) ],
   (SHOW_ACTIVE_NO_EXPAND, nth (Z.to_nat active_index) zero 0)).

(** Occurrences of the marker [..] in a string, counted from left to right
    without overlap, as [s.count("..")] does. *)
Fixpoint marker_count (s : str) : nat :=
  match s with
  | a :: rest =>
      match rest with
      | b :: rest' =>
          if N.eqb a Pathlib.dot && N.eqb b Pathlib.dot
          then S (marker_count rest') else marker_count rest
      | [] => O
      end
  | [] => O
  end.

(** The label of a tab: the title without its first character when it
    starts with [#], the executable of the active pane otherwise. *)
Definition tab_label (h : Host) (tab : TabBarData) : str :=
  match title tab with
  | c :: rest => if N.eqb c 35%N then rest else active_exe h (tab_id tab)
  | [] => active_exe h (tab_id tab)
  end.

(** The calls of a frame before the last one: [draw_tab] with
    is_last = False for each tab and index in turn, the module-level
    variables going from one call to the next. *)
Definition accumulate (pal : Palette) (fuel : nat) (h : Host) (screen : Screen)
           (g : Globals) (calls : list (TabBarData * Z)) : Globals :=
  fold_left (fun g call => fst (draw_tab pal fuel h g screen (fst call) (snd call) false))
            calls g.

(** A cell as [Cell.__init__] leaves it: the stored overhead is the length
    of both borders, the separator and the icon, plus one. *)
Definition built (c : Cell.t) : Prop :=
  Cell.text_length_overhead c
  = len (fst (Cell.border c) ++ snd (Cell.border c) ++ Cell.separator c ++ Cell.icon c) + 1.

(** The clock cell and the session cell of [draw_right], the folder cell
    of [draw_left]. *)
Definition time_cell (pal : Palette) : Cell.t :=
  Cell.init time_icon get_time None (BG pal) (FG pal) (COLOR_3 pal)
            Cell.default_separator Cell.default_border.

Definition session_cell (pal : Palette) (tab : option TabBarData) : Cell.t :=
  Cell.init session_icon get_session tab (BG pal) (FG pal) (COLOR_3 pal)
            Cell.default_separator Cell.default_border.

Definition wd_cell (pal : Palette) (fuel : nat) (tab : option TabBarData) : Cell.t :=
  Cell.init folder_icon (get_wd fuel) tab (BG pal) (FG pal) (COLOR_4 pal)
            Cell.default_separator Cell.default_border.

(** The name that [get_session] shows: [none] for a tab outside a named
    session. *)
Definition shown_session (tab : TabBarData) : str :=
  if str_eqb (session_name tab) [] then lit "none" else session_name tab.

(** The calls that the host makes for a row of tabs: the index it passes
    counts from [i] on, from 1 for a whole frame. *)
Fixpoint numbered_from (i : Z) (tabs : list TabBarData) : list (TabBarData * Z) :=
  match tabs with
  | [] => []
  | tab :: rest => (tab, i) :: numbered_from (i + 1) rest
  end.

(** The glyphs of [text] written from column [col] on in one styling. *)
Fixpoint styled (col fg bg : Z) (bold : bool) (text : str) : list Glyph :=
  match text with
  | [] => []
  | ch :: rest => mkGlyph col ch fg bg bold :: styled (col + 1) fg bg bold rest
  end.

(** ** Sample surroundings *)

(** A host whose HOME is /home/u and whose panes report no working
    directory (TabAccessor answers with the empty string then). *)
Definition host_without_wd : Host :=
  mkHost (Some (lit "/home/u")) (fun _ => []) (fun _ => lit "bash") 9 5 7.

(** A host whose HOME is /home/u, every pane being in /home/u/a/b/c/d. *)
Definition host_deep : Host :=
  mkHost (Some (lit "/home/u")) (fun _ => lit "/home/u/a/b/c/d")
         (fun _ => lit "bash") 9 5 7.

(** A host whose panes are in the home directory, written with a trailing
    slash. *)
Definition host_at_home : Host :=
  mkHost (Some (lit "/home/u")) (fun _ => lit "/home/u/") (fun _ => lit "bash") 9 5 7.

(** Three tabs titled #alpha, bash and #gamma, the second one active. *)
Definition tab_alpha : TabBarData := mkTab (lit "#alpha") 1 false (lit "development").
Definition tab_bash : TabBarData := mkTab (lit "bash") 2 true (lit "development").
Definition tab_gamma : TabBarData := mkTab (lit "#gamma") 3 false (lit "development").

(** A tab titled [#]: the label that the user chose is empty. *)
Definition tab_hash : TabBarData := mkTab (lit "#") 4 true [].

Definition sample_palette : Palette := mkPalette 1 2 3 4 5 6.

Definition screen80 : Screen := mkScreen 80 (mkCursor 0 0 0 false false false) [].

(** The module-level variables once the three tabs were accumulated. *)
Definition sample_center : Globals :=
  mkGlobals (map (get_tab_cell sample_palette) [tab_alpha; tab_bash; tab_gamma])
            1 (Some 7).

(** The module-level variables after the first two calls of a frame. *)
Definition sample_before : Globals :=
  accumulate sample_palette 3 host_deep screen80 initial_globals
             [(tab_alpha, 1); (tab_bash, 2)].

(** The surface after the last call of the frame of the three sample
    tabs. *)
Definition sample_flushed : Screen :=
  Eval vm_compute in
    match snd (draw_tab sample_palette 3 host_deep sample_before screen80 tab_gamma 3 true) with
    | Ret (surface, _) => surface
    | _ => screen80
    end.

(* ================================================================== *)
(** * Properties *)
(* ================================================================== *)

(** ** The drawing surface *)

Lemma len_app {A : Type} (a b : list A) : len (a ++ b) = len a + len b.
Proof. unfold len. rewrite length_app. lia. Qed.

Lemma len_nonneg {A : Type} (a : list A) : 0 <= len a.
Proof. unfold len. lia. Qed.

Lemma len_cons {A : Type} (a : A) (l : list A) : len (a :: l) = 1 + len l.
Proof. unfold len. cbn [List.length]. lia. Qed.

Lemma written_chars (s s' : Screen) : written s s' = len (chars s') - len (chars s).
Proof. unfold written, chars, len. now rewrite !length_map. Qed.

Lemma screen_draw_chars (text : str) :
  forall s, chars (screen_draw s text) = chars s ++ text.
Proof.
  unfold screen_draw.
  induction text as [|ch text IH]; intro s; cbn [fold_left].
  - now rewrite app_nil_r.
  - rewrite IH. unfold chars, put. cbn [drawn].
    rewrite map_app. cbn [map g_char]. now rewrite <- app_assoc.
Qed.

Lemma screen_draw_x (text : str) :
  forall s, x (cursor (screen_draw s text)) = x (cursor s) + len text.
Proof.
  unfold screen_draw.
  induction text as [|ch text IH]; intro s; cbn [fold_left].
  - unfold len. cbn. lia.
  - rewrite IH, len_cons. unfold put. cbn [cursor x]. lia.
Qed.

Lemma screen_draw_columns (text : str) :
  forall s, columns (screen_draw s text) = columns s.
Proof.
  unfold screen_draw.
  induction text as [|ch text IH]; intro s; cbn [fold_left]; [reflexivity|].
  now rewrite IH.
Qed.

(** The styling setters leave the glyphs, the column and the width alone. *)
Lemma chars_set_fg s v : chars (set_fg s v) = chars s. Proof. reflexivity. Qed.
Lemma chars_set_bg s v : chars (set_bg s v) = chars s. Proof. reflexivity. Qed.
Lemma chars_set_bold s v : chars (set_bold s v) = chars s. Proof. reflexivity. Qed.
Lemma chars_set_dim s v : chars (set_dim s v) = chars s. Proof. reflexivity. Qed.
Lemma chars_set_italic s v : chars (set_italic s v) = chars s. Proof. reflexivity. Qed.
Lemma chars_set_x s v : chars (set_x s v) = chars s. Proof. reflexivity. Qed.
Lemma x_set_fg s v : x (cursor (set_fg s v)) = x (cursor s). Proof. reflexivity. Qed.
Lemma x_set_bg s v : x (cursor (set_bg s v)) = x (cursor s). Proof. reflexivity. Qed.
Lemma x_set_bold s v : x (cursor (set_bold s v)) = x (cursor s). Proof. reflexivity. Qed.
Lemma x_set_dim s v : x (cursor (set_dim s v)) = x (cursor s). Proof. reflexivity. Qed.
Lemma x_set_italic s v : x (cursor (set_italic s v)) = x (cursor s). Proof. reflexivity. Qed.
Lemma x_set_x s v : x (cursor (set_x s v)) = v. Proof. reflexivity. Qed.
Lemma columns_set_fg s v : columns (set_fg s v) = columns s. Proof. reflexivity. Qed.
Lemma columns_set_bg s v : columns (set_bg s v) = columns s. Proof. reflexivity. Qed.
Lemma columns_set_bold s v : columns (set_bold s v) = columns s. Proof. reflexivity. Qed.
Lemma columns_set_dim s v : columns (set_dim s v) = columns s. Proof. reflexivity. Qed.
Lemma columns_set_italic s v : columns (set_italic s v) = columns s. Proof. reflexivity. Qed.
Lemma columns_set_x s v : columns (set_x s v) = columns s. Proof. reflexivity. Qed.

Create Rewrite HintDb surface.
#[local] Hint Rewrite
  chars_set_fg chars_set_bg chars_set_bold chars_set_dim chars_set_italic chars_set_x
  x_set_fg x_set_bg x_set_bold x_set_dim x_set_italic x_set_x
  columns_set_fg columns_set_bg columns_set_bold columns_set_dim columns_set_italic
  columns_set_x screen_draw_chars screen_draw_x screen_draw_columns
  @len_app : surface.

Lemma str_eqb_nil (t : str) : str_eqb t [] = true <-> t = [].
Proof.
  unfold str_eqb. destruct (list_eq_dec N.eq_dec t []); split; congruence.
Qed.

Lemma draw_renders (c : Cell.t) (h : Host) (s : Screen) (m : Z) (r : option str) :
  Cell.text_fn c h (m - Cell.text_length_overhead c) (Cell.tab c) = Ret r ->
  exists s', Cell.draw c h s m = Ret s'
             /\ chars s' = chars s ++ rendering c r
             /\ x (cursor s') = x (cursor s) + len (rendering c r)
             /\ columns s' = columns s
             /\ (r = None -> s' = s).
Proof.
  intro Hfn. unfold Cell.draw. rewrite Hfn. cbn [Py.bind].
  destruct r as [text|].
  - destruct (str_eqb text []) eqn:E.
    + apply str_eqb_nil in E. subst text. eexists. split; [reflexivity|].
      cbn [rendering]. autorewrite with surface.
      rewrite <- !app_assoc. repeat split; try discriminate; lia.
    + assert (text <> []) as Hne.
      { intro H0. apply str_eqb_nil in H0. congruence. }
      eexists. split; [reflexivity|].
      destruct text as [|ch text]; [congruence|]. cbn [rendering].
      autorewrite with surface.
      rewrite <- !app_assoc. repeat split; try discriminate; lia.
  - exists s. cbn [rendering]. rewrite app_nil_r. unfold len. cbn.
    repeat split; lia.
Qed.

(** ** Cell: [draw] writes what [length] announces *)

Section CellContract.

Variables (icon : str) (text_fn : TextFn) (tab : option TabBarData).
Variables (bg fg color : Z) (separator : str) (border : str * str).

Let cell : Cell.t := Cell.init icon text_fn tab bg fg color separator border.

Lemma overhead_init :
  Cell.text_length_overhead cell
  = len (fst border ++ snd border ++ separator ++ icon) + 1.
Proof. reflexivity. Qed.

Lemma length_measures (h : Host) (m : Z) (r : option str) :
  text_fn h (m - Cell.text_length_overhead cell) tab = Ret r ->
  Cell.length cell h m = Ret (len (rendering cell r)).
Proof.
  intro Hfn. unfold Cell.length.
  change (Cell.text_fn cell) with text_fn. change (Cell.tab cell) with tab.
  rewrite Hfn. cbn [Py.bind].
  destruct r as [text|]; [|reflexivity].
  destruct (str_eqb text []) eqn:E.
  - apply str_eqb_nil in E. subst text. cbn [rendering].
    f_equal. autorewrite with surface. lia.
  - destruct text as [|ch text].
    + exfalso. assert (str_eqb [] [] = true) by now apply str_eqb_nil. congruence.
    + cbn [rendering]. rewrite overhead_init. f_equal.
      change (Cell.border cell) with border. change (Cell.icon cell) with icon.
      change (Cell.separator cell) with separator.
      autorewrite with surface. rewrite !len_cons. change (len (lit " ")) with 1. lia.
Qed.

(** C1. When the text provider of a Cell answers [r] both to the call
    made by [length] and to the call made by [draw] (same width, same
    tab), [draw] returns and writes exactly the number of columns that
    [length] returns, the cursor advancing by as much: nothing for
    hidden (None), the surface being left as it was; len(icon) + len of
    both borders for the empty string, the glyphs being left border,
    icon, right border; len(label) + overhead for a label, the glyphs
    being left border, icon, separator, a space, the label and the
    right border, where overhead = len(both borders + separator + icon)
    + 1. *)
Theorem draw_writes_length_columns
        (h_length h_draw : Host) (screen : Screen) (max_size : Z) (r : option str) :
  let overhead := len (fst border ++ snd border ++ separator ++ icon) + 1 in
  text_fn h_length (max_size - overhead) tab = Ret r ->
  text_fn h_draw (max_size - overhead) tab = Ret r ->
  exists (n : Z) (screen' : Screen),
    Cell.length cell h_length max_size = Ret n
    /\ Cell.draw cell h_draw screen max_size = Ret screen'
    /\ written screen screen' = n
    /\ x (cursor screen') = x (cursor screen) + n
    /\ match r with
       | None => n = 0 /\ screen' = screen
       | Some [] =>
           n = len icon + len (fst border) + len (snd border)
           /\ chars screen' = chars screen ++ fst border ++ icon ++ snd border
       | Some label =>
           n = len label + overhead
           /\ chars screen'
              = chars screen ++ fst border ++ icon ++ separator
                      ++ lit " " ++ label ++ snd border
       end.
Proof.
  intros overhead Hl Hd.
  destruct (draw_renders cell h_draw screen max_size r Hd)
    as (screen' & Hdraw & Hchars & Hx & _ & Hnone).
  exists (len (rendering cell r)), screen'.
  split; [now apply length_measures|].
  split; [exact Hdraw|].
  split; [rewrite written_chars, Hchars, len_app; lia|].
  split; [exact Hx|].
  destruct r as [[|ch label]|].
  - split; [|exact Hchars]. cbn [rendering].
    change (Cell.border cell) with border. change (Cell.icon cell) with icon.
    autorewrite with surface. lia.
  - split.
    + cbn [rendering]. subst overhead.
      change (Cell.border cell) with border. change (Cell.icon cell) with icon.
      change (Cell.separator cell) with separator.
      autorewrite with surface. rewrite !len_cons. change (len (lit " ")) with 1. lia.
    + rewrite Hchars. cbn [rendering]. now rewrite <- !app_assoc.
  - split; [reflexivity|]. now apply Hnone.
Qed.

End CellContract.

(** The cell of the tab #alpha on an 80 column screen: its provider answers
    with the label alpha, [length] announces 10 columns, [draw] writes 10. *)
Lemma draw_writes_length_columns_witness :
  exists screen',
    Cell.length (get_tab_cell sample_palette tab_alpha) host_deep 80 = Ret 10
    /\ Cell.draw (get_tab_cell sample_palette tab_alpha) host_deep screen80 80 = Ret screen'
    /\ written screen80 screen' = 10.
Proof.
  destruct (draw_writes_length_columns
              (lit "1") get_tab (Some tab_alpha) 1 2 3 Cell.default_separator
              Cell.default_border host_deep host_deep screen80 80 (Some (lit "alpha")))
    as (n & screen' & Hlen & Hdraw & Hw & _ & Hn & _); [reflexivity | reflexivity |].
  exists screen'. rewrite Hn in Hlen, Hw. repeat split; assumption.
Defined.

(** ** The center strategist picks the first strategy that fits *)

Lemma sum_from (xs : list Z) : forall a, fold_left Z.add xs a = a + sum xs.
Proof.
  unfold sum. induction xs as [|y xs IH]; intro a; cbn [fold_left]; [lia|].
  rewrite IH, (IH (0 + y)). lia.
Qed.

Lemma sum_cons (y : Z) (xs : list Z) : sum (y :: xs) = y + sum xs.
Proof. unfold sum at 1. cbn [fold_left]. rewrite sum_from. lia. Qed.

Lemma mapM_cons_inv {A B : Type} (f : A -> outcome B) a xs ys :
  mapM f (a :: xs) = Ret ys ->
  exists b bs, ys = b :: bs /\ f a = Ret b /\ mapM f xs = Ret bs.
Proof.
  cbn [mapM]. destruct (f a) as [b| |]; cbn [Py.bind]; try discriminate.
  destruct (mapM f xs) as [bs| |]; cbn [Py.bind]; try discriminate.
  intros [= <-]. now exists b, bs.
Qed.

Lemma mapM_nth {A : Type} (f : A -> outcome Z) :
  forall xs ys k c,
    mapM f xs = Ret ys -> nth_error xs k = Some c -> f c = Ret (nth k ys 0).
Proof.
  induction xs as [|a xs IH]; intros ys k c HM Hk.
  - destruct k; discriminate.
  - apply mapM_cons_inv in HM as (b & bs & -> & Hb & Hbs).
    destruct k as [|k]; cbn in Hk |- *.
    + now injection Hk as <-.
    + eauto.
Qed.

Lemma index_in_range {A : Type} (l : list A) (i : Z) :
  0 <= i < len l ->
  exists a, index l i = Ret a /\ nth_error l (Z.to_nat i) = Some a.
Proof.
  intros [Hlo Hhi]. unfold index.
  destruct (i <? 0) eqn:E; [apply Z.ltb_lt in E; lia|].
  destruct (i <? 0) eqn:E1; [discriminate|].
  destruct (len l <=? i) eqn:E2; [apply Z.leb_le in E2; lia|]. cbn [orb].
  destruct (nth_error l (Z.to_nat i)) as [a|] eqn:En; [now exists a|].
  apply nth_error_None in En. unfold len in Hhi. lia.
Qed.

Lemma index_nil {A : Type} (i : Z) : index (@nil A) i = Raise IndexError.
Proof.
  unfold index, len. cbn [List.length Z.of_nat].
  destruct (i <? 0) eqn:E.
  - assert ((0 + i <? 0) = true) as -> by (apply Z.ltb_lt; apply Z.ltb_lt in E; lia).
    reflexivity.
  - assert ((0 <=? i) = true) as -> by (apply Z.leb_le; apply Z.ltb_ge in E; lia).
    now rewrite orb_true_r.
Qed.

Lemma expand_active_length_mix (h : Host) (cols ai : Z) :
  forall cells full zero i acc,
    mapM (fun c => Cell.length c h cols) cells = Ret full ->
    mapM (fun c => Cell.length c h 0) cells = Ret zero ->
    expand_active_length h cols ai acc (enumerate_from i cells)
    = Ret (acc + sum (active_mix ai i full zero)).
Proof.
  induction cells as [|c cells IH]; intros full zero i acc Hf Hz.
  - cbn in Hf, Hz. injection Hf as Hf. injection Hz as Hz. subst full zero.
    cbn. f_equal. unfold sum. cbn. lia.
  - apply mapM_cons_inv in Hf as (f & fs & -> & Hf & Hfs).
    apply mapM_cons_inv in Hz as (z & zs & -> & Hz & Hzs).
    cbn [enumerate_from expand_active_length active_mix].
    rewrite sum_cons.
    destruct (i =? ai); [rewrite Hf | rewrite Hz]; cbn [Py.bind];
      rewrite (IH fs zs) by assumption; f_equal; lia.
Qed.

(** C2. For a non-empty list of cells whose lengths all return, at full
    budget ([full]) and at zero budget ([zero]), and an active index that
    designates one of them, [center_strategy] returns the first strategy,
    in the order Expand-All, Expand-Active, No-Expand,
    Show-Active-Expanded, whose total width is strictly less than
    screen.columns, together with that very width; the first three widths
    count n - 1 separating spaces, the fourth is the active cell's length
    at full budget; when none fits it returns Show-Active-Icon-Only, which
    has no fit test, with the active cell's length at zero budget. *)
Theorem center_strategy_first_fit
        (h : Host) (g : Globals) (screen : Screen) (full zero : list Z) :
  center g <> [] ->
  0 <= active_index g < len (center g) ->
  mapM (fun c => Cell.length c h (columns screen)) (center g) = Ret full ->
  mapM (fun c => Cell.length c h 0) (center g) = Ret zero ->
  center_strategy h g screen
  = Ret (let (candidates, fallback) :=
           preference (len (center g)) (active_index g) full zero in
         first_fit (columns screen) candidates fallback).
Proof.
  intros _ Hai Hfull Hzero. unfold center_strategy.
  rewrite Hfull. cbn [Py.bind preference first_fit].
  destruct (_ <? columns screen); [reflexivity|].
  unfold enumerate.
  rewrite (expand_active_length_mix h _ _ _ full zero) by assumption.
  cbn [Py.bind].
  destruct (_ <? columns screen); [reflexivity|].
  rewrite Hzero. cbn [Py.bind].
  destruct (_ <? columns screen); [reflexivity|].
  destruct (index_in_range _ _ Hai) as (cell & -> & Hnth). cbn [Py.bind].
  rewrite (mapM_nth _ _ _ _ _ Hfull Hnth). cbn [Py.bind].
  destruct (_ <? columns screen); [reflexivity|].
  now rewrite (mapM_nth _ _ _ _ _ Hzero Hnth).
Qed.

(** Three tabs on an 80 column screen: 10 + 9 + 10 columns and two spaces
    fit, the strategy is Expand-All. *)
Lemma center_strategy_first_fit_witness :
  center_strategy host_deep sample_center screen80 = Ret (EXPAND_ALL, 31).
Proof.
  apply (center_strategy_first_fit host_deep sample_center screen80 [10; 9; 10] [3; 3; 3]).
  - discriminate.
  - unfold len. cbn. lia.
  - reflexivity.
  - reflexivity.
Defined.

(** ** get_wd *)

Lemma str_eqb_refl (a : str) : str_eqb a a = true.
Proof. unfold str_eqb. destruct (list_eq_dec N.eq_dec a a); congruence. Qed.

Lemma is_prefix_refl (a : list str) : Pathlib.is_prefix a a = true.
Proof.
  induction a as [|y a IH]; [reflexivity|].
  cbn [Pathlib.is_prefix]. now rewrite str_eqb_refl, IH.
Qed.

Lemma is_relative_to_refl (p : Pathlib.Path) : Pathlib.is_relative_to p p = true.
Proof. unfold Pathlib.is_relative_to. now rewrite str_eqb_refl, is_prefix_refl. Qed.

(** At the home directory the path becomes [~], whichever branch of the
    [wd == home] test is taken. *)
Lemma home_relative_at_home (h : Host) (tab : TabBarData) (home : str) :
  HOME h = Some home ->
  Pathlib.of_str (active_wd h (tab_id tab)) = Pathlib.of_str home ->
  home_relative h tab = Ret (Pathlib.mkPath [] [lit "~"]).
Proof.
  intros Hhome Hwd. unfold home_relative. rewrite Hhome, Hwd. cbn [Py.bind].
  rewrite is_relative_to_refl. unfold Pathlib.relative_to.
  rewrite is_relative_to_refl. cbn [Py.bind]. rewrite skipn_all.
  destruct (Pathlib.eqb _ _); reflexivity.
Qed.

(** C5. When the working directory of the tab's active pane is the home
    directory (HOME is set, and both name the same path), [get_wd] returns
    the one-character string [~] for every max_size >= 1, whatever the
    fuel. *)
Theorem get_wd_at_home
        (fuel : nat) (h : Host) (tab : TabBarData) (home : str) (max_size : Z) :
  HOME h = Some home ->
  Pathlib.of_str (active_wd h (tab_id tab)) = Pathlib.of_str home ->
  1 <= max_size ->
  get_wd fuel h max_size (Some tab) = Ret (Some (lit "~")).
Proof.
  intros Hhome Hwd Hm. unfold get_wd. cbn [attr Py.bind].
  rewrite (home_relative_at_home h tab home Hhome Hwd). cbn [Py.bind].
  cbn. destruct fuel; cbn;
    (destruct (1 <=? max_size) eqn:E; [reflexivity | apply Z.leb_gt in E; lia]).
Qed.

Lemma get_wd_at_home_witness :
  get_wd 0 host_at_home 1 (Some tab_alpha) = Ret (Some (lit "~")).
Proof.
  apply (get_wd_at_home 0 host_at_home tab_alpha (lit "/home/u") 1);
    [reflexivity | reflexivity | lia].
Defined.

(** With no segment at all and a negative budget, the loop of [get_wd]
    never reaches its exit test [parts_cnt == len(parts)], nor its return:
    the counter starts at 1, the length is 0, the joined path is empty. *)
Lemma get_wd_loop_empty_diverges (max_size : Z) :
  max_size < 0 ->
  forall fuel parts_cnt,
    1 <= parts_cnt -> get_wd_loop fuel [] false max_size parts_cnt = OutOfFuel.
Proof.
  intros Hm. induction fuel as [|fuel IH]; intros cnt Hcnt; cbn [get_wd_loop].
  - destruct (cnt =? len []) eqn:E; [|reflexivity].
    apply Z.eqb_eq in E. unfold len in E. cbn in E. lia.
  - destruct (cnt =? len []) eqn:E.
    { apply Z.eqb_eq in E. unfold len in E. cbn in E. lia. }
    unfold slice, slice_from. rewrite !skipn_nil, firstn_nil. cbn [app join].
    destruct (len [] <=? max_size) eqn:E1.
    { apply Z.leb_le in E1. unfold len in E1. cbn in E1. lia. }
    apply IH. lia.
Qed.

(** [get_wd] on a path without parts: it never returns when the budget is
    negative, and returns the empty string otherwise. *)
Lemma get_wd_no_parts_diverges
      (fuel : nat) (h : Host) (tab : TabBarData) (wd : Pathlib.Path) (max_size : Z) :
  home_relative h tab = Ret wd ->
  Pathlib.parts wd = [] ->
  max_size < 0 ->
  get_wd fuel h max_size (Some tab) = OutOfFuel.
Proof.
  intros Hwd Hparts Hm. unfold get_wd. cbn [attr Py.bind]. rewrite Hwd. cbn [Py.bind].
  rewrite Hparts. change (compress []) with (@Ret (list str * bool) ([], false)).
  cbn [Py.bind b2z]. now rewrite get_wd_loop_empty_diverges by lia.
Qed.

Lemma get_wd_no_parts_returns
      (fuel : nat) (h : Host) (tab : TabBarData) (wd : Pathlib.Path) (max_size : Z) :
  home_relative h tab = Ret wd ->
  Pathlib.parts wd = [] ->
  0 <= max_size ->
  get_wd (S fuel) h max_size (Some tab) = Ret (Some []).
Proof.
  intros Hwd Hparts Hm. unfold get_wd. cbn [attr Py.bind]. rewrite Hwd. cbn [Py.bind].
  rewrite Hparts. change (compress []) with (@Ret (list str * bool) ([], false)).
  cbn [Py.bind b2z get_wd_loop].
  change (1 + 0 =? len (@nil str)) with false. cbn match.
  unfold slice, slice_from. rewrite !skipn_nil, firstn_nil. cbn [app join].
  change (len (@nil N)) with 0.
  destruct (0 <=? max_size) eqn:E; [reflexivity | apply Z.leb_gt in E; lia].
Qed.

(** C3 at its failing input: with an empty working directory and
    max_size = -1, [get_wd] does not return, however much fuel it is
    given. *)
Theorem get_wd_empty_path_never_returns :
  forall fuel, get_wd fuel host_without_wd (-1) (Some tab_alpha) = OutOfFuel.
Proof.
  intro fuel.
  apply (get_wd_no_parts_diverges fuel host_without_wd tab_alpha (Pathlib.mkPath [] []));
    [reflexivity | reflexivity | lia].
Qed.

(** Away from that input the loop is left after at most
    [len parts - parts_cnt] rounds, and what it hands back fits. *)
Lemma get_wd_loop_returns (parts : list str) (compressed : bool) (max_size : Z) :
  forall fuel parts_cnt,
    parts_cnt <= len parts ->
    len parts - parts_cnt <= Z.of_nat fuel ->
    exists r, get_wd_loop fuel parts compressed max_size parts_cnt = Ret r
              /\ match r with
                 | Some wd => len wd <= max_size
                 | None => True
                 end.
Proof.
  induction fuel as [|fuel IH]; intros cnt Hle Hfuel; cbn [get_wd_loop].
  - destruct (cnt =? len parts) eqn:E; [now exists None|].
    apply Z.eqb_neq in E. lia.
  - destruct (cnt =? len parts) eqn:E; [now exists None|].
    apply Z.eqb_neq in E.
    destruct (len _ <=? max_size) eqn:E1.
    + eexists. split; [reflexivity|]. now apply Z.leb_le in E1.
    + apply IH; lia.
Qed.

Lemma compress_length (parts parts' : list str) (compressed : bool) :
  compress parts = Ret (parts', compressed) ->
  (compressed = false /\ parts' = parts /\ len parts <= MAX_LENGTH_PATH)
  \/ (compressed = true /\ len parts' = 5 /\ MAX_LENGTH_PATH < len parts).
Proof.
  unfold compress. destruct (MAX_LENGTH_PATH <? len parts) eqn:E.
  - apply Z.ltb_lt in E. destruct (index parts 0) as [p0| |]; cbn [Py.bind]; try discriminate.
    intros [= <- <-]. right. repeat split; [|exact E].
    cbn [app]. rewrite !len_cons.
    unfold slice_from, clamp, MAX_LENGTH_PATH in *.
    unfold len at 1. rewrite length_skipn.
    change (-3 <? 0) with true. cbn match. unfold len in *. lia.
  - apply Z.ltb_ge in E. intros [= <- <-]. now left.
Qed.

Lemma compress_returns (parts : list str) :
  exists parts' compressed, compress parts = Ret (parts', compressed).
Proof.
  unfold compress. destruct (MAX_LENGTH_PATH <? len parts) eqn:E; [|eauto].
  apply Z.ltb_lt in E. unfold MAX_LENGTH_PATH in E.
  destruct (index_in_range parts 0) as (p0 & -> & _); [lia|].
  cbn [Py.bind]. eauto.
Qed.

(** Whenever the path has a segment, or the budget is not negative,
    [get_wd] returns with three rounds of fuel, and a string it returns is
    no longer than max_size. *)
Lemma get_wd_returns_fitting
      (fuel : nat) (h : Host) (tab : TabBarData) (wd : Pathlib.Path) (max_size : Z) :
  home_relative h tab = Ret wd ->
  (3 <= fuel)%nat ->
  Pathlib.parts wd <> [] ->
  exists r, get_wd fuel h max_size (Some tab) = Ret r
            /\ match r with
               | Some s => len s <= max_size
               | None => True
               end.
Proof.
  intros Hwd Hfuel Hne. unfold get_wd. cbn [attr Py.bind]. rewrite Hwd. cbn [Py.bind].
  destruct (compress_returns (Pathlib.parts wd)) as (parts' & c & Hc).
  rewrite Hc. cbn [Py.bind].
  assert (1 + b2z c <= len parts' /\ len parts' - (1 + b2z c) <= 3) as [H1 H2].
  { destruct (compress_length _ _ _ Hc) as [(-> & -> & Hl) | (-> & Hl & _)];
      cbn [b2z]; unfold MAX_LENGTH_PATH in *; [|lia].
    destruct (Pathlib.parts wd); [congruence|]. rewrite len_cons in *.
    pose proof (len_nonneg l). lia. }
  destruct (get_wd_loop_returns parts' c max_size fuel (1 + b2z c)) as (r & -> & Hr);
    [lia | lia |]. cbn [Py.bind].
  destruct r as [s|]; [now exists (Some s)|].
  destruct (index_in_range parts' (len parts' - 1)) as (lst & Hidx & _).
  { destruct c; cbn [b2z] in H1; lia. }
  assert (index parts' (-1) = Ret lst) as ->.
  { unfold index in *. cbn [Z.ltb Z.compare].
    destruct (len parts' - 1 <? 0) eqn:E; [apply Z.ltb_lt in E; destruct c; cbn [b2z] in H1; lia|].
    replace (len parts' + -1) with (len parts' - 1) by lia. exact Hidx. }
  cbn [Py.bind]. destruct (len lst <=? max_size) eqn:E.
  - exists (Some lst). split; [reflexivity|]. now apply Z.leb_le.
  - now exists None.
Qed.

(** What the loop returns is the head joined with the segments from some
    position [k] on, for a [k] the counter went through. *)
Lemma get_wd_loop_shape (parts : list str) (compressed : bool) (max_size : Z) :
  forall fuel parts_cnt s,
    parts_cnt <= len parts ->
    get_wd_loop fuel parts compressed max_size parts_cnt = Ret (Some s) ->
    exists k, parts_cnt <= k < len parts
              /\ s = join (lit "/") (slice parts 0 (1 + b2z compressed)
                                          ++ slice_from parts k)
              /\ len s <= max_size.
Proof.
  induction fuel as [|fuel IH]; intros cnt s Hle; cbn [get_wd_loop];
    destruct (cnt =? len parts) eqn:E; try discriminate.
  apply Z.eqb_neq in E.
  destruct (len _ <=? max_size) eqn:E1.
  - intros [= <-]. exists cnt. apply Z.leb_le in E1. repeat split; (lia || assumption).
  - intro H. destruct (IH (cnt + 1) s) as (k & Hk & Hs & Hfit); [lia | exact H |].
    exists k. repeat split; (lia || assumption).
Qed.

(** A path of more than three parts ends with three segments, and is cut
    down to its first part, the marker and these three. *)
Lemma compress_deep (parts : list str) :
  MAX_LENGTH_PATH < len parts ->
  exists first pre a b c,
    parts = first :: pre ++ [a; b; c]
    /\ compress parts = Ret ([first; lit ".."; a; b; c], true).
Proof.
  unfold MAX_LENGTH_PATH. intro Hdeep.
  destruct parts as [|first rest]; [unfold len in Hdeep; cbn in Hdeep; lia|].
  rewrite len_cons in Hdeep.
  pose proof (firstn_skipn (List.length rest - 3) rest) as Hsplit.
  pose proof (length_skipn (List.length rest - 3) rest) as Hlen.
  assert (3 <= List.length rest)%nat as H3 by (unfold len in Hdeep; lia).
  destruct (skipn (List.length rest - 3) rest) as [|a [|b [|c [|d tl]]]] eqn:Hsk;
    cbn [List.length] in Hlen; try lia.
  exists first, (firstn (List.length rest - 3) rest), a, b, c.
  split; [now rewrite Hsplit|].
  unfold compress, MAX_LENGTH_PATH. rewrite len_cons.
  destruct (3 <? 1 + len rest) eqn:E; [|apply Z.ltb_ge in E; lia].
  assert (index (first :: rest) 0 = Ret first) as ->.
  { destruct (index_in_range (first :: rest) 0) as (y & Hy & Hn);
      [rewrite len_cons; lia|]. cbn in Hn. congruence. }
  cbn [Py.bind]. do 2 f_equal. cbn [app]. do 2 f_equal.
  unfold slice_from, clamp. rewrite len_cons. cbn [Z.opp].
  change (-3 <? 0) with true. cbn match.
  replace (Z.to_nat (Z.min (1 + len rest) (Z.max 0 (1 + len rest + -3))))
    with (S (List.length rest - 3)) by (unfold len; lia).
  cbn [skipn]. exact Hsk.
Qed.

(** C4, amended. For a working directory of more than three parts (after
    the home prefix is replaced), a string returned by [get_wd] fits
    max_size and is either the first part, one marker [..] and the last
    one, two or three segments of the path, joined with [/], or, as the
    last resort, the final segment alone, with no marker. *)
Theorem get_wd_deep_path_shape
        (fuel : nat) (h : Host) (tab : TabBarData) (wd : Pathlib.Path)
        (max_size : Z) (s : str) :
  home_relative h tab = Ret wd ->
  MAX_LENGTH_PATH < len (Pathlib.parts wd) ->
  get_wd fuel h max_size (Some tab) = Ret (Some s) ->
  exists first pre tail,
    Pathlib.parts wd = first :: pre ++ tail
    /\ 1 <= len tail <= MAX_LENGTH_PATH
    /\ len s <= max_size
    /\ (s = join (lit "/") (first :: lit ".." :: tail) \/ tail = [s]).
Proof.
  intros Hwd Hdeep. unfold get_wd. cbn [attr Py.bind]. rewrite Hwd. cbn [Py.bind].
  destruct (compress_deep _ Hdeep) as (first & pre & a & b & c & Hparts & ->).
  cbn [Py.bind b2z]. change (1 + 1) with 2.
  destruct (get_wd_loop fuel _ true max_size 2) as [[wd'|]| |] eqn:Hloop;
    cbn [Py.bind]; try discriminate.
  - intros [= <-].
    apply get_wd_loop_shape in Hloop as (k & Hk & Hs & Hfit);
      [|unfold len; cbn; lia].
    change (len [first; lit ".."; a; b; c]) with 5 in Hk.
    change (slice [first; lit ".."; a; b; c] 0 (1 + b2z true))
      with [first; lit ".."] in Hs.
    assert (k = 2 \/ k = 3 \/ k = 4) as [-> | [-> | ->]] by lia.
    + exists first, pre, [a; b; c]. unfold MAX_LENGTH_PATH, len. cbn [List.length].
      repeat split; try lia; try assumption. now left.
    + exists first, (pre ++ [a]), [b; c]. unfold MAX_LENGTH_PATH, len. cbn [List.length].
      rewrite <- app_assoc. repeat split; try lia; try assumption. now left.
    + exists first, (pre ++ [a; b]), [c]. unfold MAX_LENGTH_PATH, len. cbn [List.length].
      rewrite <- app_assoc. repeat split; try lia; try assumption. now left.
  - change (index [first; lit ".."; a; b; c] (-1)) with (Ret c). cbn [Py.bind].
    destruct (len c <=? max_size) eqn:E; [|discriminate].
    intros [= <-]. apply Z.leb_le in E.
    exists first, (pre ++ [a; b]), [c]. unfold MAX_LENGTH_PATH, len. cbn [List.length].
    rewrite <- app_assoc.
    split; [exact Hparts|]. split; [lia|]. split; [exact E|]. now right.
Qed.

(** With nine columns of room ~/a/b/c/d is shown as ~/../c/d. *)
Lemma get_wd_deep_path_shape_witness :
  exists first pre tail,
    [lit "~"; lit "a"; lit "b"; lit "c"; lit "d"] = first :: pre ++ tail
    /\ 1 <= len tail <= MAX_LENGTH_PATH
    /\ len (lit "~/../c/d") <= 9
    /\ (lit "~/../c/d" = join (lit "/") (first :: lit ".." :: tail)
        \/ tail = [lit "~/../c/d"]).
Proof.
  apply (get_wd_deep_path_shape
           3 host_deep tab_alpha
           (Pathlib.mkPath [] [lit "~"; lit "a"; lit "b"; lit "c"; lit "d"])
           9 (lit "~/../c/d")); reflexivity.
Defined.

(** C4 as stated fails: the path ~/a/b/c/d has five parts, and with one
    column of room [get_wd] returns its last segment [d], in which there is
    no marker. *)
Lemma get_wd_last_resort_without_marker :
  home_relative host_deep tab_alpha
  = Ret (Pathlib.mkPath [] [lit "~"; lit "a"; lit "b"; lit "c"; lit "d"])
  /\ MAX_LENGTH_PATH
     < len (Pathlib.parts (Pathlib.mkPath [] [lit "~"; lit "a"; lit "b"; lit "c"; lit "d"]))
  /\ get_wd 3 host_deep 1 (Some tab_alpha) = Ret (Some (lit "d"))
  /\ marker_count (lit "d") = 0%nat.
Proof. repeat split. Qed.

(** ** get_tab *)

Lemma get_tab_unfold (h : Host) (tab : TabBarData) (max_size : Z) :
  title tab <> [] ->
  get_tab h max_size (Some tab)
  = Ret (Some (if max_size <=? len (tab_label h tab) then [] else tab_label h tab)).
Proof.
  intro Hne. unfold get_tab, tab_label. cbn [attr Py.bind].
  destruct (title tab) as [|c rest]; [congruence|].
  change (index (c :: rest) 0) with (Ret c). cbn [Py.bind].
  assert (slice_from (c :: rest) 1 = rest) as ->.
  { unfold slice_from, clamp. rewrite len_cons. change (1 <? 0) with false. cbn match.
    pose proof (len_nonneg rest).
    replace (Z.to_nat (Z.min (1 + len rest) (Z.max 0 1))) with 1%nat by lia.
    reflexivity. }
  destruct (N.eqb c 35); destruct (max_size <=? _); reflexivity.
Qed.

(** C6 as stated fails in one direction: with the title [#] the label is
    empty, and [get_tab] returns the empty string although the label's
    length, 0, is below max_size = 5. *)
Lemma get_tab_empty_label_with_room :
  title tab_hash <> []
  /\ get_tab host_deep 5 (Some tab_hash) = Ret (Some [])
  /\ ~ (5 <= len (tab_label host_deep tab_hash)).
Proof.
  split; [discriminate|]. split; [reflexivity|].
  unfold len. cbn. lia.
Qed.

(** C6, amended. For a tab with a non-empty title, [get_tab] returns the
    empty string when the label is max_size long or longer, and the label
    itself, untouched, otherwise; so what it returns is empty exactly when
    the label is that long or is itself empty. *)
Theorem get_tab_label_or_icon_only (h : Host) (tab : TabBarData) (max_size : Z) :
  title tab <> [] ->
  exists r,
    get_tab h max_size (Some tab) = Ret (Some r)
    /\ (max_size <= len (tab_label h tab) -> r = [])
    /\ (len (tab_label h tab) < max_size -> r = tab_label h tab)
    /\ (r = [] <-> max_size <= len (tab_label h tab) \/ tab_label h tab = []).
Proof.
  intro Hne. rewrite (get_tab_unfold h tab max_size Hne).
  eexists. split; [reflexivity|].
  destruct (max_size <=? len (tab_label h tab)) eqn:E.
  - apply Z.leb_le in E. repeat split; auto; lia.
  - apply Z.leb_gt in E. repeat split; auto; try lia.
    intros [H|H]; [lia | exact H].
Qed.

Lemma get_tab_label_or_icon_only_witness :
  exists r, get_tab host_deep 80 (Some tab_alpha) = Ret (Some r)
            /\ (80 <= len (tab_label host_deep tab_alpha) -> r = [])
            /\ (len (tab_label host_deep tab_alpha) < 80 -> r = tab_label host_deep tab_alpha)
            /\ (r = [] <-> 80 <= len (tab_label host_deep tab_alpha)
                           \/ tab_label host_deep tab_alpha = []).
Proof. apply (get_tab_label_or_icon_only host_deep tab_alpha 80). discriminate. Defined.


(** ** center_strategy on an empty list *)

(** C8 as stated fails: on an empty list and an 80 column screen
    [center_strategy] raises nothing, it returns Expand-All with the
    width -1. *)
Lemma center_strategy_empty_returns :
  center_strategy host_deep (mkGlobals [] 1 None)
                  (mkScreen 80 (mkCursor 0 0 0 false false false) [])
  = Ret (EXPAND_ALL, -1).
Proof. reflexivity. Qed.

(** C8, amended. With an empty [center], [center_strategy] returns
    Expand-All and the width -1 whenever -1 < screen.columns, its first fit
    test passing; only on a screen of negative width does it reach the
    show-active-only paths, which then raise IndexError. Rendering the bar
    over an empty [center] raises IndexError in any case: where the
    strategist returned, [draw_left] indexes the empty list. *)
Theorem center_strategy_empty
        (pal : Palette) (fuel : nat) (h : Host) (active : Z) (timer : option Z)
        (screen : Screen) :
  let g := mkGlobals [] active timer in
  center_strategy h g screen
  = (if -1 <? columns screen then Ret (EXPAND_ALL, -1) else Raise IndexError)
  /\ render_bar pal fuel h g screen = Raise IndexError.
Proof.
  cbn zeta.
  assert (center_strategy h (mkGlobals [] active timer) screen
          = (if -1 <? columns screen then Ret (EXPAND_ALL, -1) else Raise IndexError))
    as Hcs.
  { unfold center_strategy. cbn [center active_index mapM Py.bind enumerate
                                 enumerate_from expand_active_length].
    change (len (@nil Cell.t) - 1 + sum []) with (-1).
    change (len (@nil Cell.t) - 1) with (-1).
    destruct (-1 <? columns screen); [reflexivity|].
    now rewrite index_nil. }
  split; [exact Hcs|].
  unfold render_bar. rewrite Hcs.
  destruct (-1 <? columns screen); [|reflexivity].
  cbn [Py.bind]. unfold draw_left. cbn [center active_index].
  now rewrite index_nil.
Qed.

(** ** draw_tab: where the center block starts *)

Lemma run_app (n m : nat) :
  forall start, run start (n + m) = run start n ++ run (start + Z.of_nat n) m.
Proof.
  induction n as [|n IH]; intro start.
  - cbn. now rewrite Z.add_0_r.
  - cbn [Nat.add run app]. rewrite IH. do 3 f_equal. lia.
Qed.

Lemma written_on_refl (s : Screen) : written_on s s.
Proof. exists O. cbn. rewrite app_nil_r. repeat split; lia. Qed.

Lemma written_on_trans (a b c : Screen) :
  written_on a b -> written_on b c -> written_on a c.
Proof.
  intros (n & Hn & Hxn & Hcn) (m & Hm & Hxm & Hcm). exists (n + m)%nat.
  rewrite Hm, Hn, Hxn, run_app, <- app_assoc. repeat split; [lia | congruence].
Qed.

Lemma written_on_put (s : Screen) (ch : N) : written_on s (put s ch).
Proof.
  exists 1%nat. unfold glyph_columns, put. cbn [drawn cursor x columns run].
  rewrite map_app. cbn [map g_col]. repeat split; lia.
Qed.

Lemma written_on_screen_draw (text : str) : forall s, written_on s (screen_draw s text).
Proof.
  unfold screen_draw. induction text as [|ch text IH]; intro s; cbn [fold_left].
  - apply written_on_refl.
  - eapply written_on_trans; [apply written_on_put | apply IH].
Qed.

(** A change of styling writes nothing. *)
Lemma written_on_styled (s s' : Screen) :
  drawn s' = drawn s -> x (cursor s') = x (cursor s) -> columns s' = columns s ->
  written_on s s'.
Proof.
  intros Hd Hx Hc. exists O. unfold glyph_columns. rewrite Hd, Hx, Hc. cbn.
  rewrite app_nil_r. repeat split; lia.
Qed.

Lemma written_on_then_draw (a s : Screen) (text : str) :
  written_on a s -> written_on a (screen_draw s text).
Proof. intro H. eapply written_on_trans; [exact H | apply written_on_screen_draw]. Qed.

Lemma written_on_then_fg (a s : Screen) (v : Z) :
  written_on a s -> written_on a (set_fg s v).
Proof. intro H. eapply written_on_trans; [exact H | now apply written_on_styled]. Qed.

Lemma written_on_then_bg (a s : Screen) (v : Z) :
  written_on a s -> written_on a (set_bg s v).
Proof. intro H. eapply written_on_trans; [exact H | now apply written_on_styled]. Qed.

Lemma written_on_then_bold (a s : Screen) (v : bool) :
  written_on a s -> written_on a (set_bold s v).
Proof. intro H. eapply written_on_trans; [exact H | now apply written_on_styled]. Qed.

Lemma written_on_then_dim (a s : Screen) (v : bool) :
  written_on a s -> written_on a (set_dim s v).
Proof. intro H. eapply written_on_trans; [exact H | now apply written_on_styled]. Qed.

Lemma written_on_then_italic (a s : Screen) (v : bool) :
  written_on a s -> written_on a (set_italic s v).
Proof. intro H. eapply written_on_trans; [exact H | now apply written_on_styled]. Qed.

Lemma written_on_then_put (a s : Screen) (ch : N) :
  written_on a s -> written_on a (put s ch).
Proof. intro H. eapply written_on_trans; [exact H | apply written_on_put]. Qed.

Ltac written_on_steps :=
  repeat first
    [ apply written_on_then_draw | apply written_on_then_put
    | apply written_on_then_fg
    | apply written_on_then_bg | apply written_on_then_bold
    | apply written_on_then_dim | apply written_on_then_italic ];
  apply written_on_refl.

Lemma written_on_cell_draw (c : Cell.t) (h : Host) (s s' : Screen) (m : Z) :
  Cell.draw c h s m = Ret s' -> written_on s s'.
Proof.
  unfold Cell.draw.
  destruct (Cell.text_fn c h _ _) as [[text|]| |]; cbn [Py.bind]; try discriminate.
  - destruct (str_eqb text []); intros [= <-]; written_on_steps.
  - intros [= <-]. apply written_on_refl.
Qed.

Lemma written_on_draw_cells (h : Host) (budget : Z -> Z) :
  forall cells s s', draw_cells h budget s cells = Ret s' -> written_on s s'.
Proof.
  induction cells as [|[idx cell] cells IH]; intros s s'; cbn [draw_cells].
  - intros [= <-]. apply written_on_refl.
  - destruct (Cell.draw cell h _ (budget idx)) as [s1| |] eqn:Hd; cbn [Py.bind];
      try discriminate.
    intro Hrest. apply written_on_cell_draw in Hd. apply IH in Hrest.
    eapply written_on_trans; [|exact Hrest].
    eapply written_on_trans; [|exact Hd].
    destruct (negb (idx =? 0)); [apply written_on_screen_draw | apply written_on_refl].
Qed.

Lemma written_on_draw_center (h : Host) (g : Globals) (s s' : Screen)
      (strategy : CenterStrategy) :
  draw_center h g s strategy = Ret s' -> written_on s s'.
Proof.
  unfold draw_center. destruct strategy.
  1-3: apply written_on_draw_cells.
  all: destruct (index (center g) (active_index g)); cbn [Py.bind]; try discriminate;
    apply written_on_cell_draw.
Qed.


(** ** draw_tab: the frame accumulator *)

Lemma draw_tab_not_last (pal : Palette) (fuel : nat) (h : Host) (g : Globals)
      (screen : Screen) (tab : TabBarData) (index : Z) :
  draw_tab pal fuel h g screen tab index false
  = (appended pal h g tab index, Ret (screen, x (cursor screen))).
Proof. reflexivity. Qed.

Lemma accumulate_center (pal : Palette) (fuel : nat) (h : Host) (screen : Screen) :
  forall calls g,
    center (accumulate pal fuel h screen g calls)
    = center g ++ map (fun call => get_tab_cell pal (fst call)) calls.
Proof.
  unfold accumulate. induction calls as [|call calls IH]; intro g; cbn [fold_left map].
  - now rewrite app_nil_r.
  - rewrite IH, draw_tab_not_last. cbn [fst appended center].
    now rewrite <- app_assoc.
Qed.

Lemma accumulate_snoc (pal : Palette) (fuel : nat) (h : Host) (screen : Screen)
      (g : Globals) (calls : list (TabBarData * Z)) (call : TabBarData * Z) :
  accumulate pal fuel h screen g (calls ++ [call])
  = appended pal h (accumulate pal fuel h screen g calls) (fst call) (snd call).
Proof. unfold accumulate. now rewrite fold_left_app. Qed.

(** The cell of a tab measures itself or raises IndexError, nothing else. *)
Lemma tab_cell_length_outcome (pal : Palette) (h : Host) (tab : TabBarData) (m : Z) :
  (exists n, Cell.length (get_tab_cell pal tab) h m = Ret n)
  \/ Cell.length (get_tab_cell pal tab) h m = Raise IndexError.
Proof.
  unfold Cell.length, get_tab_cell, Cell.init.
  cbn [Cell.text_fn Cell.tab Cell.text_length_overhead Cell.icon Cell.border].
  destruct (title tab) as [|c rest] eqn:Ht.
  - right. unfold get_tab. cbn [attr Py.bind]. now rewrite Ht.
  - left. rewrite get_tab_unfold by congruence. cbn [Py.bind].
    destruct (_ <=? _); [|destruct (str_eqb _ _)]; eexists; reflexivity.
Qed.

Lemma untitled_tab_breaks_lengths (pal : Palette) (h : Host) (m : Z)
      (untitled : TabBarData) (later : list TabBarData) :
  title untitled = [] ->
  forall earlier,
    mapM (fun c => Cell.length c h m)
         (map (get_tab_cell pal) (earlier ++ untitled :: later))
    = Raise IndexError.
Proof.
  intro Ht.
  assert (Cell.length (get_tab_cell pal untitled) h m = Raise IndexError) as Hbad.
  { unfold Cell.length, get_tab_cell, Cell.init. cbn [Cell.text_fn Cell.tab].
    unfold get_tab. cbn [attr Py.bind]. now rewrite Ht. }
  induction earlier as [|tab earlier IH]; cbn [app map mapM].
  - now rewrite Hbad.
  - destruct (tab_cell_length_outcome pal h tab m) as [[n ->] | ->]; [|reflexivity].
    cbn [Py.bind]. now rewrite IH.
Qed.

(** C10. For a tab whose title is the empty string, [get_tab] raises
    IndexError for every max_size, and so do [length] and [draw] of the
    cell that [get_tab_cell] builds for it; at the entry point, the call
    that ends a frame raises IndexError when its tab has the empty title,
    whatever the tabs accumulated before it. *)
Theorem get_tab_empty_title_raises
        (pal : Palette) (fuel : nat) (h : Host) (screen : Screen) (max_size : Z)
        (id : Z) (active : bool) (session : str)
        (before : list (TabBarData * Z)) (active_index index : Z) (timer : option Z) :
  let tab := mkTab [] id active session in
  get_tab h max_size (Some tab) = Raise IndexError
  /\ Cell.length (get_tab_cell pal tab) h max_size = Raise IndexError
  /\ Cell.draw (get_tab_cell pal tab) h screen max_size = Raise IndexError
  /\ snd (draw_tab pal fuel h
                   (accumulate pal fuel h screen (mkGlobals [] active_index timer) before)
                   screen tab index true)
     = Raise IndexError.
Proof.
  cbn zeta. repeat split.
  unfold draw_tab, render_bar, center_strategy.
  cbn [appended center]. rewrite accumulate_center. cbn [center app].
  rewrite <- (map_map fst (get_tab_cell pal)).
  change [get_tab_cell pal (mkTab [] id active session)]
    with (map (get_tab_cell pal) [mkTab [] id active session]).
  rewrite <- map_app.
  rewrite (untitled_tab_breaks_lengths pal h (columns screen)
             (mkTab [] id active session) [] eq_refl (map fst before)).
  reflexivity.
Qed.

(** C9 as stated fails: a frame made of one tab without a title. Its only
    call is the last one; it raises IndexError from the strategist, the
    reset of [center] is not reached, and [center] holds the cell of the
    tab when the next frame begins. *)
Lemma untitled_frame_leaves_cells :
  let untitled := mkTab [] 1 true [] in
  let result := draw_tab sample_palette 3 host_deep initial_globals screen80
                         untitled 1 true in
  center initial_globals = []
  /\ snd result = Raise IndexError
  /\ center (fst result) = [get_tab_cell sample_palette untitled]
  /\ center (fst result) <> [].
Proof. cbn zeta. repeat split. discriminate. Qed.

(** C9, amended. A frame is a run of [draw_tab] calls, is_last being
    False for all but the last one. Started with an empty [center], each
    of the calls before the last one returns and leaves in [center] the
    cells of the tabs seen so far, one per tab, in call order. After a last
    call that returns, [center] is the empty list again; after a last call
    that does not return, the reset was not reached and [center] holds the
    cells of all the tabs of the frame. *)
Theorem center_accumulates_then_resets
        (pal : Palette) (fuel : nat) (h : Host) (screen : Screen) (g : Globals)
        (before : list (TabBarData * Z)) (tab : TabBarData) (index : Z) :
  center g = [] ->
  (forall (seen : list (TabBarData * Z)) (call : TabBarData * Z)
          (rest : list (TabBarData * Z)),
      before = seen ++ call :: rest ->
      let g_seen := accumulate pal fuel h screen g seen in
      draw_tab pal fuel h g_seen screen (fst call) (snd call) false
      = (accumulate pal fuel h screen g (seen ++ [call]),
         Ret (screen, x (cursor screen)))
      /\ center (accumulate pal fuel h screen g (seen ++ [call]))
         = map (fun c => get_tab_cell pal (fst c)) (seen ++ [call]))
  /\ (let result := draw_tab pal fuel h (accumulate pal fuel h screen g before)
                             screen tab index true in
      match snd result with
      | Ret _ => center (fst result) = []
      | _ => center (fst result)
             = map (fun c => get_tab_cell pal (fst c)) (before ++ [(tab, index)])
      end).
Proof.
  intro Hempty. split.
  - intros seen call rest _. cbn zeta. split.
    + now rewrite draw_tab_not_last, accumulate_snoc.
    + now rewrite accumulate_center, Hempty.
  - cbn zeta. unfold draw_tab.
    destruct (render_bar _ _ _ _ _); cbn [fst snd center]; [reflexivity| |];
      cbn [appended center]; rewrite accumulate_center, Hempty, map_app; reflexivity.
Qed.

(** The frame of the three sample tabs, started from the state the module
    is loaded with: its last call returns, so [center] is empty after it. *)
Lemma center_accumulates_then_resets_witness :
  center initial_globals = []
  /\ exists g' r,
      draw_tab sample_palette 3 host_deep
               (accumulate sample_palette 3 host_deep screen80 initial_globals
                           [(tab_alpha, 1); (tab_bash, 2)])
               screen80 tab_gamma 3 true
      = (g', Ret r)
      /\ center g' = [].
Proof.
  split; [reflexivity|].
  destruct (center_accumulates_then_resets
              sample_palette 3 host_deep screen80 initial_globals
              [(tab_alpha, 1); (tab_bash, 2)] tab_gamma 3 eq_refl) as [_ Hreset].
  cbn zeta in Hreset.
  eexists. eexists. split; [lazy; reflexivity|].
  exact Hreset.
Defined.

(* ================================================================== *)
(** * Further properties of the program *)
(* ================================================================== *)

(** ** Cells built by the constructor *)

Lemma init_built (icon : str) (text_fn : TextFn) (tab : option TabBarData)
      (bg fg color : Z) (separator : str) (border : str * str) :
  built (Cell.init icon text_fn tab bg fg color separator border).
Proof. reflexivity. Qed.

Lemma length_renders (c : Cell.t) (h : Host) (m : Z) (r : option str) :
  built c ->
  Cell.text_fn c h (m - Cell.text_length_overhead c) (Cell.tab c) = Ret r ->
  Cell.length c h m = Ret (len (rendering c r)).
Proof.
  intros Hb Hfn. unfold Cell.length. rewrite Hfn. cbn [Py.bind].
  destruct r as [text|]; [|reflexivity].
  destruct (str_eqb text []) eqn:E.
  - apply str_eqb_nil in E. subst text. cbn [rendering].
    f_equal. autorewrite with surface. lia.
  - destruct text as [|ch text].
    + exfalso. assert (str_eqb [] [] = true) by now apply str_eqb_nil. congruence.
    + cbn [rendering]. rewrite Hb. f_equal.
      autorewrite with surface. rewrite !len_cons. change (len (lit " ")) with 1. lia.
Qed.

Lemma length_inv (c : Cell.t) (h : Host) (m n : Z) :
  Cell.length c h m = Ret n ->
  exists r, Cell.text_fn c h (m - Cell.text_length_overhead c) (Cell.tab c) = Ret r.
Proof.
  unfold Cell.length.
  destruct (Cell.text_fn c h _ _) as [r| |]; cbn [Py.bind]; try discriminate. eauto.
Qed.

(** What [length] announces for a built cell, [draw] writes, from the
    cursor on and with the same budget. *)
Lemma draw_matches_length (c : Cell.t) (h : Host) (s : Screen) (m n : Z) :
  built c ->
  Cell.length c h m = Ret n ->
  exists s', Cell.draw c h s m = Ret s'
             /\ written s s' = n
             /\ x (cursor s') = x (cursor s) + n
             /\ columns s' = columns s.
Proof.
  intros Hb Hlen. destruct (length_inv c h m n Hlen) as (r & Hfn).
  rewrite (length_renders c h m r Hb Hfn) in Hlen. injection Hlen as <-.
  destruct (draw_renders c h s m r Hfn) as (s' & Hd & Hc & Hx & Hcol & _).
  exists s'. repeat split; try assumption.
  rewrite written_chars, Hc, len_app. lia.
Qed.

(** ** get_session and the session cell *)

Lemma slice_first3 (text : str) :
  3 < len text -> len (slice text 0 3) = 3 /\ slice text 0 3 = firstn 3 text.
Proof.
  intro H. unfold slice, clamp. change (0 <? 0) with false. change (3 <? 0) with false.
  cbn match.
  replace (Z.to_nat (Z.min (len text) (Z.max 0 0))) with 0%nat by lia.
  replace (Z.to_nat (Z.min (len text) (Z.max 0 3))) with 3%nat by lia.
  cbn [skipn Nat.sub]. split; [|reflexivity].
  unfold len in *. rewrite length_firstn. lia.
Qed.

Lemma shown_session_nonempty (tab : TabBarData) : shown_session tab <> [].
Proof.
  unfold shown_session. destruct (str_eqb (session_name tab) []) eqn:E; [discriminate|].
  intro H. rewrite H in E. now rewrite str_eqb_refl in E.
Qed.

(** The answers of [get_session] for a tab. *)
Lemma get_session_answer (h : Host) (max_size : Z) (tab : TabBarData) :
  exists r,
    get_session h max_size (Some tab) = Ret r
    /\ match r with
       | Some s =>
           s <> [] /\ len s <= max_size
           /\ (len (shown_session tab) <= max_size -> s = shown_session tab)
           /\ (max_size < len (shown_session tab) ->
               s = firstn 3 (shown_session tab) /\ len s = 3)
       | None => max_size < 3 /\ max_size < len (shown_session tab)
       end.
Proof.
  unfold get_session. cbn [attr Py.bind]. fold (shown_session tab).
  pose proof (shown_session_nonempty tab) as Hne.
  destruct (len (shown_session tab) <=? max_size) eqn:E.
  - apply Z.leb_le in E. eexists. split; [reflexivity|].
    repeat split; try assumption; try lia.
  - apply Z.leb_gt in E. destruct (3 <=? max_size) eqn:E3.
    + apply Z.leb_le in E3.
      destruct (slice_first3 (shown_session tab)) as [Hl Hs]; [lia|].
      eexists. split; [reflexivity|]. repeat split; try lia; try assumption.
      intro H0. rewrite H0 in Hl. discriminate.
    + apply Z.leb_gt in E3. eexists. split; [reflexivity|]. split; lia.
Qed.

(** What the session cell measures at a budget, read off [get_session]. *)
Lemma session_cell_length (pal : Palette) (h : Host) (tab : TabBarData) (m : Z) :
  let name := shown_session tab in
  Cell.length (session_cell pal (Some tab)) h m
  = Ret (if len name <=? m - 6 then len name + 6
         else if 3 <=? m - 6 then 9 else 0).
Proof.
  cbn zeta.
  destruct (get_session_answer h (m - 6) tab) as (r & Hr & Hcases).
  rewrite (length_renders (session_cell pal (Some tab)) h m r (init_built _ _ _ _ _ _ _ _) Hr).
  f_equal. destruct r as [s0|].
  - destruct Hcases as (Hne & Hfit & Hfull & Hcut).
    destruct s0 as [|ch s0]; [congruence|]. cbn [rendering].
    change (Cell.border (session_cell pal (Some tab))) with Cell.default_border.
    change (Cell.icon (session_cell pal (Some tab))) with session_icon.
    change (Cell.separator (session_cell pal (Some tab))) with Cell.default_separator.
    autorewrite with surface.
    change (len (fst Cell.default_border)) with 1. change (len (snd Cell.default_border)) with 1.
    change (len session_icon) with 2. change (len Cell.default_separator) with 1.
    change (len (lit " ")) with 1.
    destruct (len (shown_session tab) <=? m - 6) eqn:E.
    + apply Z.leb_le in E. rewrite <- (Hfull E). lia.
    + apply Z.leb_gt in E. destruct (Hcut E) as [_ H3].
      destruct (3 <=? m - 6) eqn:E3; [lia|]. apply Z.leb_gt in E3. lia.
  - destruct Hcases as [H3 Hlong].
    destruct (len (shown_session tab) <=? m - 6) eqn:E; [apply Z.leb_le in E; lia|].
    destruct (3 <=? m - 6) eqn:E3; [apply Z.leb_le in E3; lia|]. reflexivity.
Qed.

Lemma len_pos_of_nonempty {A : Type} (l : list A) : l <> [] -> 1 <= len l.
Proof. destruct l; [congruence|]. rewrite len_cons. pose proof (len_nonneg l). lia. Qed.

(** A session cell that is shown keeps its width when it is measured
    again with that width. *)
Lemma session_cell_stable
        (pal : Palette) (h : Host) (tab : TabBarData) (m n : Z) :
  Cell.length (session_cell pal (Some tab)) h m = Ret n ->
  n <> 0 ->
  7 <= n <= m /\ Cell.length (session_cell pal (Some tab)) h n = Ret n.
Proof.
  rewrite !session_cell_length. cbn zeta. intros [= <-] Hn.
  pose proof (len_pos_of_nonempty _ (shown_session_nonempty tab)) as Hpos.
  destruct (len (shown_session tab) <=? m - 6) eqn:E.
  - apply Z.leb_le in E.
    replace (len (shown_session tab) + 6 - 6) with (len (shown_session tab)) by lia.
    rewrite Z.leb_refl. split; [lia | reflexivity].
  - apply Z.leb_gt in E. destruct (3 <=? m - 6) eqn:E3; [|congruence].
    apply Z.leb_le in E3. split; [lia|].
    change (9 - 6) with 3.
    destruct (len (shown_session tab) <=? 3) eqn:E'; [apply Z.leb_le in E'; lia|].
    reflexivity.
Qed.


(** ** get_time and the clock cell *)

(** What the clock cell measures at a budget, read off [get_time]. *)
Lemma time_cell_measure (pal : Palette) (h : Host) (m : Z) :
  Cell.length (time_cell pal) h m = Ret (if m <? 11 then 0 else 11).
Proof.
  unfold Cell.length, time_cell, Cell.init.
  cbn [Cell.text_fn Cell.tab Cell.text_length_overhead Cell.icon Cell.border].
  change (len (fst Cell.default_border ++ snd Cell.default_border
                   ++ Cell.default_separator ++ time_icon) + 1) with 6.
  unfold get_time.
  destruct (m - 6 <? 5) eqn:E; cbn [Py.bind].
  - apply Z.ltb_lt in E. destruct (m <? 11) eqn:E'; [reflexivity | apply Z.ltb_ge in E'; lia].
  - apply Z.ltb_ge in E. destruct (m <? 11) eqn:E'; [apply Z.ltb_lt in E'; lia | reflexivity].
Qed.

(** ** draw_right *)

Lemma len_repeat_space (n : nat) : len (repeat_str (lit " ") n) = Z.of_nat n.
Proof.
  induction n as [|n IH]; [reflexivity|].
  cbn [repeat_str]. rewrite len_app, IH. change (len (lit " ")) with 1. lia.
Qed.

Lemma written_screen_draw (s : Screen) (text : str) :
  written s (screen_draw s text) = len text.
Proof. rewrite written_chars, screen_draw_chars, len_app. lia. Qed.

Lemma written_trans (a b c : Screen) : written a c = written a b + written b c.
Proof. unfold written. lia. Qed.

(** [draw_right] ends at the right edge. *)
Lemma draw_right_flush
        (pal : Palette) (h : Host) (g : Globals) (screen : Screen)
        (active : Cell.t) (tab : TabBarData) :
  index (center g) (active_index g) = Ret active ->
  Cell.tab active = Some tab ->
  x (cursor screen) <= columns screen ->
  exists screen',
    draw_right pal h g screen = Ret screen'
    /\ x (cursor screen') = columns screen
    /\ written screen screen' = columns screen - x (cursor screen)
    /\ columns screen' = columns screen.
Proof.
  intros Hidx Htab Hx. unfold draw_right. rewrite Hidx. cbn [Py.bind]. rewrite Htab.
  fold (time_cell pal). fold (session_cell pal (Some tab)).
  set (max_size := columns screen - x (cursor screen)).
  rewrite time_cell_measure. cbn [Py.bind].
  set (T := if max_size <? 11 then 0 else 11).
  assert (Cell.length (time_cell pal) h max_size = Ret T) as HT
    by apply time_cell_measure.
  assert (0 <= T <= max_size) as HTb.
  { subst T. destruct (max_size <? 11) eqn:E; [lia | apply Z.ltb_ge in E; lia]. }
  destruct (Cell.length (session_cell pal (Some tab)) h (max_size - T - 1)) as [S| |] eqn:HS;
    try (rewrite session_cell_length in HS; discriminate).
  cbn [Py.bind].
  destruct (S =? 0) eqn:ES; cbn [negb].
  - (* the session is hidden *)
    apply Z.eqb_eq in ES. subst S.
    set (s1 := screen_draw screen (repeat_str (lit " ") (Z.to_nat (max_size - T)))).
    cbn [Py.bind].
    destruct (draw_matches_length (time_cell pal) h s1 max_size T (init_built _ _ _ _ _ _ _ _) HT)
      as (s2 & -> & Hw2 & Hx2 & Hc2).
    exists s2. split; [reflexivity|].
    assert (x (cursor s1) = x (cursor screen) + (max_size - T)) as Hx1.
    { subst s1. rewrite screen_draw_x, len_repeat_space. lia. }
    assert (written screen s1 = max_size - T) as Hw1.
    { subst s1. rewrite written_screen_draw, len_repeat_space. lia. }
    split; [subst max_size; lia|].
    split; [rewrite (written_trans screen s1 s2); subst max_size; lia|].
    rewrite Hc2. subst s1. now rewrite screen_draw_columns.
  - (* the session is shown *)
    apply Z.eqb_neq in ES.
    destruct (session_cell_stable pal h tab _ S HS ES) as [HSb HSS].
    set (s1 := screen_draw screen
                 (repeat_str (lit " ") (Z.to_nat (max_size - (T + (1 + S)))))).
    destruct (draw_matches_length (session_cell pal (Some tab)) h s1 S S
                                  (init_built _ _ _ _ _ _ _ _) HSS)
      as (s2 & -> & Hw2 & Hx2 & Hc2).
    cbn [Py.bind].
    set (s3 := screen_draw s2 (lit " ")).
    destruct (draw_matches_length (time_cell pal) h s3 max_size T (init_built _ _ _ _ _ _ _ _) HT)
      as (s4 & -> & Hw4 & Hx4 & Hc4).
    exists s4. split; [reflexivity|].
    assert (x (cursor s1) = x (cursor screen) + (max_size - (T + (1 + S)))) as Hx1.
    { subst s1. rewrite screen_draw_x, len_repeat_space. lia. }
    assert (written screen s1 = max_size - (T + (1 + S))) as Hw1.
    { subst s1. rewrite written_screen_draw, len_repeat_space. lia. }
    assert (x (cursor s3) = x (cursor s2) + 1) as Hx3.
    { subst s3. now rewrite screen_draw_x. }
    assert (written s2 s3 = 1) as Hw3.
    { subst s3. now rewrite written_screen_draw. }
    split; [subst max_size; lia|].
    split.
    + rewrite (written_trans screen s1 s4), (written_trans s1 s2 s4),
        (written_trans s2 s3 s4). subst max_size. lia.
    + rewrite Hc4. subst s3. rewrite screen_draw_columns, Hc2. subst s1.
      now rewrite screen_draw_columns.
Qed.


(** ** The tab cells *)

(** X5. The cell of a tab with a non-empty title is never hidden. It is
    either icon-only, len(str(tab_id)) + 2 columns wide, or it shows its
    label, is len(label) + len(str(tab_id)) + 4 columns wide, and is then
    strictly narrower than the width it was measured with. *)
Theorem tab_cell_length_cases (pal : Palette) (h : Host) (tab : TabBarData) (m : Z) :
  title tab <> [] ->
  let icon := str_of_int (tab_id tab) in
  let label := tab_label h tab in
  exists n,
    Cell.length (get_tab_cell pal tab) h m = Ret n
    /\ 2 <= n
    /\ (n = len icon + 2 \/ (label <> [] /\ n = len label + len icon + 4 /\ n < m)).
Proof.
  intro Hne. cbn zeta.
  set (icon := str_of_int (tab_id tab)). set (label := tab_label h tab).
  pose proof (len_nonneg icon) as Hi. pose proof (len_nonneg label) as Hl.
  unfold Cell.length, get_tab_cell, Cell.init.
  cbn [Cell.text_fn Cell.tab Cell.text_length_overhead Cell.icon Cell.border].
  fold icon. rewrite get_tab_unfold by assumption. fold label. cbn [Py.bind].
  autorewrite with surface.
  change (len (fst Cell.default_border)) with 1. change (len (snd Cell.default_border)) with 1.
  change (len Cell.default_separator) with 1.
  destruct (_ <=? len label) eqn:E.
  - change (str_eqb [] []) with true. cbn match.
    eexists. split; [reflexivity|]. split; [lia|]. left. lia.
  - apply Z.leb_gt in E. destruct (str_eqb label []) eqn:El.
    + eexists. split; [reflexivity|]. split; [lia|]. left. lia.
    + eexists. split; [reflexivity|]. split; [lia|]. right.
      split; [|lia]. intro H0. rewrite H0 in El. now rewrite str_eqb_refl in El.
Qed.

Lemma tab_cell_length_cases_witness :
  exists n,
    Cell.length (get_tab_cell sample_palette tab_alpha) host_deep 80 = Ret n
    /\ 2 <= n
    /\ (n = len (str_of_int 1) + 2
        \/ (tab_label host_deep tab_alpha <> []
            /\ n = len (tab_label host_deep tab_alpha) + len (str_of_int 1) + 4 /\ n < 80)).
Proof.
  apply (tab_cell_length_cases sample_palette host_deep tab_alpha 80). discriminate.
Defined.

(** ** The folder cell *)

Lemma get_wd_loop_fits (parts : list str) (compressed : bool) (max_size : Z) :
  forall fuel parts_cnt s,
    get_wd_loop fuel parts compressed max_size parts_cnt = Ret (Some s) ->
    len s <= max_size.
Proof.
  induction fuel as [|fuel IH]; intros cnt s; cbn [get_wd_loop];
    destruct (cnt =? len parts); try discriminate.
  destruct (len _ <=? max_size) eqn:E.
  - intros [= <-]. now apply Z.leb_le in E.
  - apply IH.
Qed.

Lemma get_wd_fits (fuel : nat) (h : Host) (tab : option TabBarData) (max_size : Z) (s : str) :
  get_wd fuel h max_size tab = Ret (Some s) -> len s <= max_size.
Proof.
  unfold get_wd. destruct (attr tab) as [t| |]; cbn [Py.bind]; try discriminate.
  destruct (home_relative h t) as [wd| |]; cbn [Py.bind]; try discriminate.
  destruct (compress _) as [[parts c]| |]; cbn [Py.bind]; try discriminate.
  destruct (get_wd_loop fuel parts c max_size _) as [[wd'|]| |] eqn:Hloop;
    cbn [Py.bind]; try discriminate.
  - intros [= <-]. exact (get_wd_loop_fits _ _ _ _ _ _ Hloop).
  - destruct (index parts (-1)) as [lst| |]; cbn [Py.bind]; try discriminate.
    destruct (len lst <=? max_size) eqn:E; [|discriminate].
    intros [= <-]. now apply Z.leb_le in E.
Qed.

(** X6. Whatever [get_wd] shows, the folder cell of the left section
    keeps to its budget: when measuring it returns, the cell is hidden
    (0 columns) or between 4 columns, its icon-only width, and the width it
    was measured with. *)
Theorem wd_cell_within_budget
        (pal : Palette) (fuel : nat) (h : Host) (tab : option TabBarData) (m n : Z) :
  Cell.length (wd_cell pal fuel tab) h m = Ret n ->
  n = 0 \/ 4 <= n <= m.
Proof.
  intro Hlen. destruct (length_inv _ _ _ _ Hlen) as (r & Hr).
  pose proof (length_renders (wd_cell pal fuel tab) h m r
                             (init_built _ _ _ _ _ _ _ _) Hr) as Hl.
  rewrite Hlen in Hl. injection Hl as ->.
  change (Cell.text_fn (wd_cell pal fuel tab)) with (get_wd fuel) in Hr.
  change (Cell.tab (wd_cell pal fuel tab)) with tab in Hr.
  change (Cell.text_length_overhead (wd_cell pal fuel tab)) with 6 in Hr.
  destruct r as [s0|]; [|now left]. right.
  apply get_wd_fits in Hr. pose proof (len_nonneg s0) as H0.
  destruct s0 as [|ch s0]; cbn [rendering];
    change (Cell.border (wd_cell pal fuel tab)) with Cell.default_border;
    change (Cell.icon (wd_cell pal fuel tab)) with folder_icon;
    change (Cell.separator (wd_cell pal fuel tab)) with Cell.default_separator;
    autorewrite with surface;
    change (len (fst Cell.default_border)) with 1;
    change (len (snd Cell.default_border)) with 1;
    change (len folder_icon) with 2; change (len Cell.default_separator) with 1;
    change (len (lit " ")) with 1; lia.
Qed.

Lemma wd_cell_within_budget_witness : 16 = 0 \/ 4 <= 16 <= 20.
Proof.
  apply (wd_cell_within_budget sample_palette 3 host_deep (Some tab_alpha) 20 16).
  reflexivity.
Defined.

(** ** The strategist and the drawer of the center agree *)

Lemma lengths_enumerated (h : Host) (budget : Z) :
  forall cells i ls,
    mapM (fun c => Cell.length c h budget) cells = Ret ls ->
    mapM (fun ic : Z * Cell.t => Cell.length (snd ic) h budget) (enumerate_from i cells)
    = Ret ls.
Proof.
  induction cells as [|c cells IH]; intros i ls Hm; cbn [enumerate_from mapM] in *.
  - exact Hm.
  - cbn [snd]. destruct (Cell.length c h budget) as [n| |]; cbn [Py.bind] in *; try discriminate.
    destruct (mapM _ cells) as [ns| |] eqn:Hns; cbn [Py.bind] in *; try discriminate.
    now rewrite (IH (i + 1) ns eq_refl).
Qed.

Lemma expand_active_length_inv (h : Host) (cols ai : Z) :
  forall cells i acc total,
    expand_active_length h cols ai acc (enumerate_from i cells) = Ret total ->
    exists ls,
      mapM (fun ic : Z * Cell.t => Cell.length (snd ic) h (cols * b2z (fst ic =? ai)))
           (enumerate_from i cells) = Ret ls
      /\ total = acc + sum ls.
Proof.
  induction cells as [|c cells IH]; intros i acc total; cbn [enumerate_from expand_active_length mapM].
  - intros [= <-]. exists []. split; [reflexivity|]. unfold sum. cbn. lia.
  - cbn [fst snd].
    assert ((if i =? ai then Cell.length c h cols else Cell.length c h 0)
            = Cell.length c h (cols * b2z (i =? ai))) as ->.
    { destruct (i =? ai); cbn [b2z]; f_equal; lia. }
    destruct (Cell.length c h _) as [n| |]; cbn [Py.bind]; try discriminate.
    intro Hrest. destruct (IH _ _ _ Hrest) as (ls & -> & ->). cbn [Py.bind].
    exists (n :: ls). split; [reflexivity|]. rewrite sum_cons. lia.
Qed.

(** From the second cell on, every cell costs a space and its length. *)
Lemma draw_cells_after_first (h : Host) (budget : Z -> Z) :
  forall cells i s ls,
    1 <= i ->
    Forall built cells ->
    mapM (fun ic : Z * Cell.t => Cell.length (snd ic) h (budget (fst ic)))
         (enumerate_from i cells) = Ret ls ->
    exists s', draw_cells h budget s (enumerate_from i cells) = Ret s'
               /\ written s s' = len cells + sum ls
               /\ x (cursor s') = x (cursor s) + (len cells + sum ls)
               /\ columns s' = columns s.
Proof.
  induction cells as [|c cells IH]; intros i s ls Hi Hb Hm;
    cbn [enumerate_from mapM draw_cells] in *.
  - injection Hm as <-. exists s. unfold written, sum, len. cbn. repeat split; lia.
  - cbn [fst snd] in Hm. inversion Hb as [|? ? Hc Hcs]; subst.
    destruct (Cell.length c h (budget i)) as [n| |] eqn:Hn; cbn [Py.bind] in Hm;
      try discriminate.
    destruct (mapM _ (enumerate_from (i + 1) cells)) as [ns| |] eqn:Hns;
      cbn [Py.bind] in Hm; try discriminate.
    injection Hm as <-.
    assert (negb (i =? 0) = true) as ->.
    { destruct (i =? 0) eqn:E; [apply Z.eqb_eq in E; lia | reflexivity]. }
    set (s1 := screen_draw s (lit " ")).
    destruct (draw_matches_length c h s1 (budget i) n Hc Hn) as (s2 & -> & Hw2 & Hx2 & Hc2).
    cbn [Py.bind].
    destruct (IH (i + 1) s2 ns ltac:(lia) Hcs Hns) as (s3 & -> & Hw3 & Hx3 & Hc3).
    exists s3. split; [reflexivity|].
    assert (written s s1 = 1) as Hw1 by (subst s1; now rewrite written_screen_draw).
    assert (x (cursor s1) = x (cursor s) + 1) as Hx1 by (subst s1; now rewrite screen_draw_x).
    rewrite len_cons, sum_cons.
    split; [rewrite (written_trans s s1 s3), (written_trans s1 s2 s3); lia|].
    split; [lia|]. rewrite Hc3, Hc2. subst s1. now rewrite screen_draw_columns.
Qed.

(** A non-empty row of cells: n - 1 spaces and the lengths. *)
Lemma draw_cells_row (h : Host) (budget : Z -> Z) (cells : list Cell.t)
      (s : Screen) (ls : list Z) :
  cells <> [] ->
  Forall built cells ->
  mapM (fun ic : Z * Cell.t => Cell.length (snd ic) h (budget (fst ic)))
       (enumerate cells) = Ret ls ->
  exists s', draw_cells h budget s (enumerate cells) = Ret s'
             /\ written s s' = len cells - 1 + sum ls
             /\ x (cursor s') = x (cursor s) + (len cells - 1 + sum ls)
             /\ columns s' = columns s.
Proof.
  intros Hne Hb Hm. destruct cells as [|c cells]; [congruence|].
  unfold enumerate in *. cbn [enumerate_from mapM draw_cells] in *.
  cbn [fst snd] in Hm. inversion Hb as [|? ? Hc Hcs]; subst.
  destruct (Cell.length c h (budget 0)) as [n| |] eqn:Hn; cbn [Py.bind] in Hm;
    try discriminate.
  destruct (mapM _ (enumerate_from (0 + 1) cells)) as [ns| |] eqn:Hns;
    cbn [Py.bind] in Hm; try discriminate.
  injection Hm as <-.
  change (negb (0 =? 0)) with false. cbn match.
  destruct (draw_matches_length c h s (budget 0) n Hc Hn) as (s1 & -> & Hw1 & Hx1 & Hc1).
  cbn [Py.bind].
  destruct (draw_cells_after_first h budget cells (0 + 1) s1 ns ltac:(lia) Hcs Hns)
    as (s2 & -> & Hw2 & Hx2 & Hc2).
  exists s2. split; [reflexivity|]. rewrite len_cons, sum_cons.
  split; [rewrite (written_trans s s1 s2); lia|].
  split; [lia|]. now rewrite Hc2.
Qed.

Lemma index_in {A : Type} (l : list A) (i : Z) (a : A) : index l i = Ret a -> In a l.
Proof.
  unfold index. destruct (_ || _); [discriminate|].
  destruct (nth_error l _) as [b|] eqn:E; [|discriminate].
  intros [= <-]. eapply nth_error_In. exact E.
Qed.

(** The width that the strategist returns is the width that the drawer
    writes. *)
Lemma draw_center_measured
        (h : Host) (g : Globals) (screen surface : Screen)
        (strategy : CenterStrategy) (width : Z) :
  center g <> [] ->
  Forall built (center g) ->
  columns surface = columns screen ->
  center_strategy h g screen = Ret (strategy, width) ->
  exists surface',
    draw_center h g surface strategy = Ret surface'
    /\ written surface surface' = width
    /\ x (cursor surface') = x (cursor surface) + width
    /\ columns surface' = columns surface.
Proof.
  intros Hne Hb Hcols. unfold center_strategy. rewrite <- Hcols.
  destruct (mapM (fun c => Cell.length c h (columns surface)) (center g)) as [full| |] eqn:Hfull;
    cbn [Py.bind]; try discriminate.
  destruct (_ <? columns surface).
  { intros [= <- <-]. unfold draw_center.
    apply (draw_cells_row h (fun _ => columns surface)); try assumption.
    now apply lengths_enumerated. }
  destruct (expand_active_length h _ _ _ _) as [l2| |] eqn:H2; cbn [Py.bind]; try discriminate.
  destruct (_ <? columns surface).
  { intros [= <- <-]. unfold draw_center.
    unfold enumerate in H2. apply expand_active_length_inv in H2 as (ls & Hls & ->).
    apply (draw_cells_row h (fun idx => columns surface * b2z (idx =? active_index g)));
      assumption. }
  destruct (mapM (fun c => Cell.length c h 0) (center g)) as [zero| |] eqn:Hzero;
    cbn [Py.bind]; try discriminate.
  destruct (_ <? columns surface).
  { intros [= <- <-]. unfold draw_center.
    apply (draw_cells_row h (fun _ => 0)); try assumption.
    now apply lengths_enumerated. }
  destruct (index (center g) (active_index g)) as [cell| |] eqn:Hidx;
    cbn [Py.bind]; try discriminate.
  assert (built cell) as Hcell.
  { rewrite Forall_forall in Hb. apply Hb. eapply index_in. exact Hidx. }
  destruct (Cell.length cell h (columns surface)) as [l4| |] eqn:H4;
    cbn [Py.bind]; try discriminate.
  destruct (_ <? columns surface).
  { intros [= <- <-]. unfold draw_center. rewrite Hidx. cbn [Py.bind].
    now apply draw_matches_length. }
  destruct (Cell.length cell h 0) as [l5| |] eqn:H5; cbn [Py.bind]; try discriminate.
  intros [= <- <-]. unfold draw_center. rewrite Hidx. cbn [Py.bind].
  now apply draw_matches_length.
Qed.


(** ** The whole bar *)

Lemma appended_center (pal : Palette) (fuel : nat) (h : Host) (screen : Screen)
      (g : Globals) (before : list (TabBarData * Z)) (tab : TabBarData) (index : Z) :
  center g = [] ->
  center (appended pal h (accumulate pal fuel h screen g before) tab index)
  = map (fun call => get_tab_cell pal (fst call)) (before ++ [(tab, index)]).
Proof.
  intro Hempty. cbn [appended center]. now rewrite accumulate_center, Hempty, map_app.
Qed.

Lemma tab_cells_built (pal : Palette) (calls : list (TabBarData * Z)) :
  Forall built (map (fun call => get_tab_cell pal (fst call)) calls).
Proof. induction calls; cbn [map]; constructor; [apply init_built | assumption]. Qed.

Lemma tab_cells_carry_tab (pal : Palette) (calls : list (TabBarData * Z)) (c : Cell.t) :
  In c (map (fun call => get_tab_cell pal (fst call)) calls) ->
  exists tab, Cell.tab c = Some tab.
Proof. rewrite in_map_iff. intros (call & <- & _). now exists (fst call). Qed.

Lemma start_leaves_room (cols width : Z) :
  width < cols -> center_start_position cols width + width + 1 <= cols.
Proof.
  intro H. unfold center_start_position.
  pose proof (Z.div_mod (cols - width) 2 ltac:(lia)) as Hdm.
  pose proof (Z.mod_pos_bound (cols - width) 2 ltac:(lia)) as Hmod. lia.
Qed.

(** X8. In a frame started with an empty [center], when on the last call
    the strategist returns a width below screen.columns and the left
    section returns, the call returns: the center block, a space and the
    right section are drawn, the cursor ends at screen.columns, which is
    also the value [draw_tab] returns, and [center] is reset. *)
Theorem draw_tab_last_call_fills_row
        (pal : Palette) (fuel : nat) (h : Host) (g : Globals) (screen : Screen)
        (before : list (TabBarData * Z)) (tab : TabBarData) (index : Z)
        (strategy : CenterStrategy) (width : Z) (screen_left : Screen) :
  let ga := appended pal h (accumulate pal fuel h screen g before) tab index in
  center g = [] ->
  center_strategy h ga screen = Ret (strategy, width) ->
  width < columns screen ->
  draw_left pal fuel h ga screen (center_start_position (columns screen) width - 1)
  = Ret screen_left ->
  exists screen',
    draw_tab pal fuel h (accumulate pal fuel h screen g before) screen tab index true
    = (mkGlobals [] (active_index ga) (timer_id ga), Ret (screen', columns screen))
    /\ x (cursor screen') = columns screen.
Proof.
  cbn zeta. set (ga := appended pal h (accumulate pal fuel h screen g before) tab index).
  intros Hempty Hcs Hw Hleft.
  assert (center ga = map (fun call => get_tab_cell pal (fst call)) (before ++ [(tab, index)]))
    as Hcenter by (now apply appended_center).
  assert (center ga <> []) as Hne.
  { rewrite Hcenter. destruct before; discriminate. }
  assert (Forall built (center ga)) as Hb by (rewrite Hcenter; apply tab_cells_built).
  (* the left section *)
  assert (columns screen_left = columns screen) as Hcl.
  { unfold draw_left in Hleft.
    destruct (Py.index (center ga) (active_index ga)); cbn [Py.bind] in Hleft;
      try discriminate.
    now destruct (written_on_cell_draw _ _ _ _ _ Hleft) as (? & _ & _ & ?). }
  assert (exists active t, Py.index (center ga) (active_index ga) = Ret active
                           /\ Cell.tab active = Some t) as (active & t & Hidx & Htab).
  { unfold draw_left in Hleft.
    destruct (Py.index (center ga) (active_index ga)) as [a| |] eqn:E;
      cbn [Py.bind] in Hleft; try discriminate.
    destruct (tab_cells_carry_tab pal (before ++ [(tab, index)]) a) as (t & Ht).
    { rewrite <- Hcenter. eapply index_in. exact E. }
    now exists a, t. }
  (* the center block *)
  set (start := center_start_position (columns screen) width) in *.
  destruct (draw_center_measured h ga screen (set_x screen_left start)
                                               strategy width Hne Hb Hcl Hcs)
    as (sc & Hdc & _ & Hxc & Hcc).
  (* the right section *)
  set (s3 := screen_draw sc (lit " ")).
  assert (x (cursor s3) <= columns s3) as Hroom.
  { subst s3. rewrite screen_draw_x, screen_draw_columns, Hxc, Hcc.
    change (len (lit " ")) with 1. cbn [set_x cursor x columns]. rewrite Hcl.
    pose proof (start_leaves_room (columns screen) width Hw). subst start. lia. }
  destruct (draw_right_flush pal h ga s3 active t Hidx Htab Hroom)
    as (s4 & Hdr & Hx4 & _ & Hc4).
  assert (columns s3 = columns screen) as Hc3.
  { subst s3. rewrite screen_draw_columns, Hcc. cbn [set_x columns]. exact Hcl. }
  exists s4. unfold draw_tab. fold ga. unfold render_bar. rewrite Hcs. cbn [Py.bind].
  fold start. rewrite Hleft. cbn [Py.bind]. rewrite Hdc. cbn [Py.bind].
  fold s3. rewrite Hdr. rewrite Hx4, Hc3. split; [reflexivity | reflexivity].
Qed.

Lemma draw_tab_last_call_fills_row_witness :
  exists screen',
    draw_tab sample_palette 3 host_deep sample_before screen80 tab_gamma 3 true
    = (mkGlobals [] 1 (Some 7), Ret (screen', 80))
    /\ x (cursor screen') = 80.
Proof.
  eapply (draw_tab_last_call_fills_row sample_palette 3 host_deep initial_globals screen80
                                       [(tab_alpha, 1); (tab_bash, 2)] tab_gamma 3
                                       EXPAND_ALL 31).
  - reflexivity.
  - reflexivity.
  - cbn. lia.
  - lazy. reflexivity.
Defined.

(** ** The cells of the right section, measured and drawn *)

(** X2. The session cell, when it is not hidden, is at least 7 columns
    wide and no wider than the width it was measured with; measured again
    with the width it announced, it announces that width again, and drawn
    with that width as budget, as [draw_right] draws it, it writes that
    many columns. *)
Theorem session_cell_length_stable
        (pal : Palette) (h : Host) (tab : TabBarData) (m n : Z) (surface : Screen) :
  Cell.length (session_cell pal (Some tab)) h m = Ret n ->
  n <> 0 ->
  7 <= n <= m
  /\ Cell.length (session_cell pal (Some tab)) h n = Ret n
  /\ exists surface',
      Cell.draw (session_cell pal (Some tab)) h surface n = Ret surface'
      /\ written surface surface' = n.
Proof.
  intros Hlen Hn. destruct (session_cell_stable pal h tab m n Hlen Hn) as [Hb Hs].
  split; [exact Hb|]. split; [exact Hs|].
  destruct (draw_matches_length _ h surface n n (init_built _ _ _ _ _ _ _ _) Hs)
    as (s' & Hd & Hw & _).
  now exists s'.
Qed.

Lemma session_cell_length_stable_witness :
  7 <= 9 <= 12
  /\ Cell.length (session_cell sample_palette (Some tab_alpha)) host_deep 9 = Ret 9
  /\ exists surface',
      Cell.draw (session_cell sample_palette (Some tab_alpha)) host_deep screen80 9
      = Ret surface'
      /\ written screen80 surface' = 9.
Proof.
  apply (session_cell_length_stable sample_palette host_deep tab_alpha 12 9 screen80);
    [reflexivity | discriminate].
Defined.

(** X3. The clock cell is hidden when fewer than 11 columns are offered
    and is 11 columns wide otherwise (two borders, the two characters of
    the icon, the separator, a space and HH:MM); it is never icon-only,
    and [draw] writes the width that [length] returns. *)
Theorem time_cell_length (pal : Palette) (h : Host) (m : Z) (surface : Screen) :
  let width := if m <? 11 then 0 else 11 in
  Cell.length (time_cell pal) h m = Ret width
  /\ exists surface',
      Cell.draw (time_cell pal) h surface m = Ret surface'
      /\ written surface surface' = width.
Proof.
  cbn zeta. pose proof (time_cell_measure pal h m) as Hlen. split; [exact Hlen|].
  destruct (draw_matches_length _ h surface m _ (init_built _ _ _ _ _ _ _ _) Hlen)
    as (s' & Hd & Hw & _).
  now exists s'.
Qed.

(** ** Where the sections land *)

Lemma written_on_draw_right (pal : Palette) (h : Host) (g : Globals) (s s' : Screen) :
  draw_right pal h g s = Ret s' -> written_on s s'.
Proof.
  unfold draw_right.
  destruct (index (center g) (active_index g)) as [active| |]; cbn [Py.bind];
    try discriminate.
  destruct (Cell.length _ h _) as [T| |]; cbn [Py.bind]; try discriminate.
  destruct (Cell.length _ h _) as [S| |]; cbn [Py.bind]; try discriminate.
  destruct (negb (S =? 0)).
  - destruct (Cell.draw _ h _ S) as [s2| |] eqn:H2; cbn [Py.bind]; try discriminate.
    intro H4. apply written_on_cell_draw in H2, H4.
    eapply written_on_trans; [|exact H4]. apply written_on_then_draw.
    eapply written_on_trans; [|exact H2]. apply written_on_screen_draw.
  - cbn [Py.bind]. intro H4. apply written_on_cell_draw in H4.
    eapply written_on_trans; [|exact H4]. apply written_on_screen_draw.
Qed.

(** X4. With the cursor not beyond the last column and an active cell
    that carries a tab, [draw_right] returns and leaves the cursor exactly
    at screen.columns, having written one glyph in each column from the
    cursor to the right edge: padding, then the session cell and a space
    when the session is shown, then the clock when it is shown. *)
Theorem draw_right_reaches_edge
        (pal : Palette) (h : Host) (g : Globals) (screen : Screen)
        (active : Cell.t) (tab : TabBarData) :
  index (center g) (active_index g) = Ret active ->
  Cell.tab active = Some tab ->
  x (cursor screen) <= columns screen ->
  exists screen',
    draw_right pal h g screen = Ret screen'
    /\ x (cursor screen') = columns screen
    /\ glyph_columns screen'
       = glyph_columns screen
           ++ run (x (cursor screen)) (Z.to_nat (columns screen - x (cursor screen))).
Proof.
  intros Hidx Htab Hx.
  destruct (draw_right_flush pal h g screen active tab Hidx Htab Hx)
    as (s' & Hd & Hx' & _ & _).
  exists s'. split; [exact Hd|]. split; [exact Hx'|].
  destruct (written_on_draw_right _ _ _ _ _ Hd) as (n & Hcols & Hxn & _).
  rewrite Hcols. do 2 f_equal. lia.
Qed.

Lemma draw_right_reaches_edge_witness :
  exists screen',
    draw_right sample_palette host_deep sample_center screen80 = Ret screen'
    /\ x (cursor screen') = columns screen80
    /\ glyph_columns screen'
       = glyph_columns screen80
           ++ run (x (cursor screen80)) (Z.to_nat (columns screen80 - x (cursor screen80))).
Proof.
  apply (draw_right_reaches_edge sample_palette host_deep sample_center screen80
                                 (get_tab_cell sample_palette tab_bash) tab_bash);
    [reflexivity | reflexivity | cbn; lia].
Defined.

(** X7. For a non-empty [center] of cells built by the constructor,
    whatever strategy and width [center_strategy] returns for a screen,
    [draw_center] with that strategy, on a surface of the same width,
    returns and writes exactly that many columns, one glyph per column
    from the cursor on: the width used for centering is the width
    drawn. *)
Theorem draw_center_writes_strategy_width
        (h : Host) (g : Globals) (screen surface : Screen)
        (strategy : CenterStrategy) (width : Z) :
  center g <> [] ->
  Forall built (center g) ->
  columns surface = columns screen ->
  center_strategy h g screen = Ret (strategy, width) ->
  exists surface',
    draw_center h g surface strategy = Ret surface'
    /\ written surface surface' = width
    /\ x (cursor surface') = x (cursor surface) + width
    /\ glyph_columns surface'
       = glyph_columns surface ++ run (x (cursor surface)) (Z.to_nat width).
Proof.
  intros Hne Hb Hcols Hcs.
  destruct (draw_center_measured h g screen surface strategy width Hne Hb Hcols Hcs)
    as (s' & Hd & Hw & Hx & _).
  exists s'. split; [exact Hd|]. split; [exact Hw|]. split; [exact Hx|].
  destruct (written_on_draw_center _ _ _ _ _ Hd) as (n & Hgc & Hxn & _).
  rewrite Hgc. do 2 f_equal. lia.
Qed.

Lemma draw_center_writes_strategy_width_witness :
  exists surface',
    draw_center host_deep sample_center screen80 EXPAND_ALL = Ret surface'
    /\ written screen80 surface' = 31
    /\ x (cursor surface') = x (cursor screen80) + 31
    /\ glyph_columns surface'
       = glyph_columns screen80 ++ run (x (cursor screen80)) (Z.to_nat 31).
Proof.
  apply (draw_center_writes_strategy_width host_deep sample_center screen80 screen80
                                           EXPAND_ALL 31).
  - discriminate.
  - repeat constructor.
  - reflexivity.
  - reflexivity.
Defined.

(** ** The active index *)

Lemma accumulate_app (pal : Palette) (fuel : nat) (h : Host) (screen : Screen)
      (g : Globals) (l1 l2 : list (TabBarData * Z)) :
  accumulate pal fuel h screen g (l1 ++ l2)
  = accumulate pal fuel h screen (accumulate pal fuel h screen g l1) l2.
Proof. unfold accumulate. apply fold_left_app. Qed.

Lemma accumulate_inactive (pal : Palette) (fuel : nat) (h : Host) (screen : Screen) :
  forall calls g,
    Forall (fun call => is_active (fst call) = false) calls ->
    active_index (accumulate pal fuel h screen g calls) = active_index g.
Proof.
  induction calls as [|call calls IH]; intros g Hin; [reflexivity|].
  inversion Hin as [|? ? Hc Hcs]; subst.
  change (accumulate pal fuel h screen g (call :: calls))
    with (accumulate pal fuel h screen (appended pal h g (fst call) (snd call)) calls).
  rewrite IH by assumption. cbn [appended active_index]. now rewrite Hc.
Qed.

Lemma numbered_from_app (l1 l2 : list TabBarData) :
  forall i, numbered_from i (l1 ++ l2)
            = numbered_from i l1 ++ numbered_from (i + len l1) l2.
Proof.
  induction l1 as [|t l1 IH]; intro i; cbn [app numbered_from].
  - now rewrite Z.add_0_r.
  - rewrite IH, len_cons. do 3 f_equal. lia.
Qed.

Lemma numbered_from_tabs (tabs : list TabBarData) :
  forall i, map fst (numbered_from i tabs) = tabs.
Proof. induction tabs as [|t tabs IH]; intro i; cbn; [reflexivity | now rewrite IH]. Qed.

Lemma numbered_from_inactive (tabs : list TabBarData) :
  Forall (fun tab => is_active tab = false) tabs ->
  forall i, Forall (fun call => is_active (fst call) = false) (numbered_from i tabs).
Proof.
  induction 1 as [|t tabs Ht _ IH]; intro i; cbn [numbered_from]; constructor; auto.
Qed.

Lemma index_middle {A : Type} (l1 l2 : list A) (a : A) :
  index (l1 ++ a :: l2) (len l1) = Ret a.
Proof.
  destruct (index_in_range (l1 ++ a :: l2) (len l1)) as (b & -> & Hn).
  { rewrite len_app, len_cons. pose proof (len_nonneg l1). pose proof (len_nonneg l2). lia. }
  unfold len in Hn. rewrite Nat2Z.id, nth_error_app2, Nat.sub_diag in Hn by lia.
  cbn in Hn. congruence.
Qed.

(** After the calls for a row of tabs numbered from 1, [active_index] is
    the position of the last active tab. *)
Lemma accumulate_active_cell
        (pal : Palette) (fuel : nat) (h : Host) (screen : Screen) (g : Globals)
        (before after : list TabBarData) (tab : TabBarData) :
  center g = [] ->
  is_active tab = true ->
  Forall (fun later => is_active later = false) after ->
  let g' := accumulate pal fuel h screen g (numbered_from 1 (before ++ tab :: after)) in
  active_index g' = len before
  /\ index (center g') (active_index g') = Ret (get_tab_cell pal tab).
Proof.
  intros Hempty Hactive Hafter. cbn zeta.
  assert (active_index
            (accumulate pal fuel h screen g (numbered_from 1 (before ++ tab :: after)))
          = len before) as Hai.
  { rewrite numbered_from_app. cbn [numbered_from]. rewrite accumulate_app.
    change (accumulate pal fuel h screen ?g0 ((tab, 1 + len before) :: ?l))
      with (accumulate pal fuel h screen (appended pal h g0 tab (1 + len before)) l).
    rewrite accumulate_inactive by (now apply numbered_from_inactive).
    cbn [appended active_index]. rewrite Hactive. lia. }
  split; [exact Hai|]. rewrite Hai, accumulate_center, Hempty. cbn [app].
  rewrite <- (map_map fst (get_tab_cell pal)), numbered_from_tabs, map_app. cbn [map].
  replace (len before) with (len (map (get_tab_cell pal) before))
    by (unfold len; now rewrite length_map).
  apply index_middle.
Qed.


(** ** get_wd: what is shown *)

(** X10. When the home directory is named by an absolute path and the
    working directory lies in it or below it, [get_wd] works on the path
    whose first part is [~] and whose other parts are the segments of the
    working directory below the home directory; a working directory that
    is not below the home directory is left as it is. *)
Theorem home_prefix_becomes_tilde
        (h : Host) (tab : TabBarData) (home : str) :
  let wd := Pathlib.of_str (active_wd h (tab_id tab)) in
  let hp := Pathlib.of_str home in
  HOME h = Some home ->
  Pathlib.root hp <> [] ->
  home_relative h tab
  = Ret (if Pathlib.is_relative_to wd hp
         then Pathlib.mkPath []
                (lit "~" :: skipn (List.length (Pathlib.segs hp)) (Pathlib.segs wd))
         else wd).
Proof.
  cbn zeta. intros Hhome Habs. unfold home_relative. rewrite Hhome. cbn [Py.bind].
  destruct (Pathlib.is_relative_to _ _) eqn:Hrel; [|reflexivity].
  unfold Pathlib.relative_to. rewrite Hrel. cbn [Py.bind].
  assert (Pathlib.eqb
            (Pathlib.mkPath [] (skipn (List.length (Pathlib.segs (Pathlib.of_str home)))
                                      (Pathlib.segs (Pathlib.of_str (active_wd h (tab_id tab))))))
            (Pathlib.of_str home) = false) as ->.
  { unfold Pathlib.eqb. cbn [Pathlib.root].
    destruct (str_eqb [] (Pathlib.root (Pathlib.of_str home))) eqn:E; [|reflexivity].
    unfold str_eqb in E.
    destruct (list_eq_dec N.eq_dec [] (Pathlib.root (Pathlib.of_str home))); congruence. }
  reflexivity.
Qed.

Lemma home_prefix_becomes_tilde_witness :
  home_relative host_deep tab_alpha
  = Ret (Pathlib.mkPath [] [lit "~"; lit "a"; lit "b"; lit "c"; lit "d"]).
Proof.
  apply (home_prefix_becomes_tilde host_deep tab_alpha (lit "/home/u"));
    [reflexivity | discriminate].
Defined.

Lemma slice_from_nonneg {A : Type} (l : list A) (k : Z) :
  0 <= k <= len l -> slice_from l k = skipn (Z.to_nat k) l.
Proof.
  intro Hk. unfold slice_from, clamp.
  destruct (k <? 0) eqn:E; [apply Z.ltb_lt in E; lia|].
  f_equal. lia.
Qed.

Lemma slice_head {A : Type} (l : list A) (k : Z) :
  0 <= k <= len l -> slice l 0 k = firstn (Z.to_nat k) l.
Proof.
  intro Hk. unfold slice, clamp. change (0 <? 0) with false.
  destruct (k <? 0) eqn:E; [apply Z.ltb_lt in E; lia|]. cbn match.
  replace (Z.to_nat (Z.min (len l) (Z.max 0 0))) with 0%nat by lia.
  cbn [skipn]. f_equal. lia.
Qed.

(** X11. For a working directory with at least one part, [get_wd] shows
    the whole path ([/] between its parts, the middle cut down to [..]
    when there are more than three parts) whenever that fits max_size; one
    unit of fuel is enough. *)
Theorem get_wd_shows_all_that_fits
        (fuel : nat) (h : Host) (tab : TabBarData) (wd : Pathlib.Path)
        (parts : list str) (compressed : bool) (max_size : Z) :
  home_relative h tab = Ret wd ->
  Pathlib.parts wd <> [] ->
  compress (Pathlib.parts wd) = Ret (parts, compressed) ->
  len (join (lit "/") parts) <= max_size ->
  get_wd (S fuel) h max_size (Some tab) = Ret (Some (join (lit "/") parts)).
Proof.
  intros Hwd Hne Hc Hfit. unfold get_wd. cbn [attr Py.bind]. rewrite Hwd. cbn [Py.bind].
  rewrite Hc. cbn [Py.bind get_wd_loop].
  assert (1 + b2z compressed <= len parts) as Hcnt.
  { destruct (compress_length _ _ _ Hc) as [(-> & -> & _) | (-> & Hl & _)];
      cbn [b2z]; [|lia].
    pose proof (len_pos_of_nonempty _ Hne). lia. }
  destruct (1 + b2z compressed =? len parts) eqn:E.
  - (* a single part: the loop is skipped, the last resort returns it *)
    apply Z.eqb_eq in E.
    destruct (compress_length _ _ _ Hc) as [(-> & -> & _) | (-> & Hl & _)];
      cbn [b2z] in E; [|lia].
    destruct (Pathlib.parts wd) as [|p [|q rest]]; [congruence | |].
    + cbn [Py.bind]. change (index [p] (-1)) with (Ret p). cbn [Py.bind join] in *.
      destruct (len p <=? max_size) eqn:E'; [reflexivity | apply Z.leb_gt in E'; lia].
    + rewrite !len_cons in E. pose proof (len_nonneg rest). lia.
  - (* the first round of the loop joins every part *)
    pose proof (len_nonneg parts) as H0.
    assert (0 <= b2z compressed) as Hb by (destruct compressed; cbn; lia).
    rewrite slice_head, slice_from_nonneg by lia.
    rewrite firstn_skipn.
    destruct (len (join (lit "/") parts) <=? max_size) eqn:E';
      [reflexivity | apply Z.leb_gt in E'; lia].
Qed.

Lemma get_wd_shows_all_that_fits_witness :
  get_wd 1 host_deep 10 (Some tab_alpha) = Ret (Some (lit "~/../b/c/d")).
Proof.
  apply (get_wd_shows_all_that_fits
           0 host_deep tab_alpha
           (Pathlib.mkPath [] [lit "~"; lit "a"; lit "b"; lit "c"; lit "d"])
           [lit "~"; lit ".."; lit "b"; lit "c"; lit "d"] true 10);
    [reflexivity | discriminate | reflexivity | cbn; lia].
Defined.










(** ** Cell.draw: the styling of what is written *)

Lemma screen_draw_styled (text : str) :
  forall s,
    screen_draw s text
    = mkScreen (columns s)
               (mkCursor (x (cursor s) + len text) (fg (cursor s)) (bg (cursor s))
                         (bold (cursor s)) (dim (cursor s)) (italic (cursor s)))
               (drawn s ++ styled (x (cursor s)) (fg (cursor s)) (bg (cursor s))
                                  (bold (cursor s)) text).
Proof.
  unfold screen_draw. induction text as [|ch text IH]; intro s; cbn [fold_left styled].
  - destruct s as [cols [cx cfg cbg cb cd ci] dr]. cbn [columns cursor x fg bg bold dim italic drawn].
    change (len (@nil N)) with 0. now rewrite Z.add_0_r, app_nil_r.
  - rewrite IH. unfold put. cbn [columns cursor x fg bg bold dim italic drawn].
    rewrite len_cons, <- app_assoc. cbn [app].
    replace (x (cursor s) + 1 + len text) with (x (cursor s) + (1 + len text)) by lia.
    reflexivity.
Qed.

(** X13. What a cell writes when its provider answers with a string, and
    in which styling. The left border is written in the accent color on
    the transparent background 0; the icon in bold, in the cell's
    background color on the accent color. Icon-only, the right border
    follows, in the accent color on 0. With a label, the separator follows
    in the accent color on the cell's background, then a space and the
    label in the cell's foreground on its background, then the right
    border in the cell's background color on 0. Nothing but the icon is
    bold, and the cursor is left not bold, not dim, not italic, on the
    background 0. *)
Theorem cell_draw_styling (c : Cell.t) (h : Host) (s : Screen) (m : Z) (text : str) :
  Cell.text_fn c h (m - Cell.text_length_overhead c) (Cell.tab c) = Ret (Some text) ->
  let x0 := x (cursor s) in
  let x1 := x0 + len (fst (Cell.border c)) in
  let x2 := x1 + len (Cell.icon c) in
  let x3 := x2 + len (Cell.separator c) in
  let x4 := x3 + len (lit " " ++ text) in
  exists s',
    Cell.draw c h s m = Ret s'
    /\ drawn s'
       = drawn s
           ++ styled x0 (Cell.color c) 0 false (fst (Cell.border c))
           ++ styled x1 (Cell.bg c) (Cell.color c) true (Cell.icon c)
           ++ match text with
              | [] => styled x2 (Cell.color c) 0 false (snd (Cell.border c))
              | _ => styled x2 (Cell.color c) (Cell.bg c) false (Cell.separator c)
                     ++ styled x3 (Cell.fg c) (Cell.bg c) false (lit " " ++ text)
                     ++ styled x4 (Cell.bg c) 0 false (snd (Cell.border c))
              end
    /\ bold (cursor s') = false /\ dim (cursor s') = false
    /\ italic (cursor s') = false /\ bg (cursor s') = 0.
Proof.
  intro Hfn. cbn zeta. unfold Cell.draw. rewrite Hfn. cbn [Py.bind].
  destruct (str_eqb text []) eqn:E.
  - apply str_eqb_nil in E. subst text. eexists. split; [reflexivity|].
    rewrite !screen_draw_styled.
    cbn [set_fg set_bg set_bold set_dim set_italic columns cursor x fg bg bold dim italic drawn].
    rewrite <- !app_assoc. repeat split.
  - assert (text <> []) as Hne by (intro H0; subst text; discriminate).
    eexists. split; [reflexivity|].
    rewrite !screen_draw_styled.
    cbn [set_fg set_bg set_bold set_dim set_italic columns cursor x fg bg bold dim italic drawn].
    rewrite <- !app_assoc. destruct text as [|ch text]; [congruence|]. repeat split.
Qed.

Lemma cell_draw_styling_witness :
  exists s',
    Cell.draw (get_tab_cell sample_palette tab_alpha) host_deep screen80 80 = Ret s'
    /\ drawn s'
       = [mkGlyph 0 57526%N 3 0 false; mkGlyph 1 49%N 1 3 true;
          mkGlyph 2 57520%N 3 1 false; mkGlyph 3 32%N 2 1 false;
          mkGlyph 4 97%N 2 1 false; mkGlyph 5 108%N 2 1 false;
          mkGlyph 6 112%N 2 1 false; mkGlyph 7 104%N 2 1 false;
          mkGlyph 8 97%N 2 1 false; mkGlyph 9 57524%N 1 0 false]
    /\ bold (cursor s') = false /\ dim (cursor s') = false
    /\ italic (cursor s') = false /\ bg (cursor s') = 0.
Proof.
  apply (cell_draw_styling (get_tab_cell sample_palette tab_alpha) host_deep screen80 80
                           (lit "alpha")).
  reflexivity.
Defined.

(** X9. When the host numbers the tabs of a frame from 1 and one tab is
    the last active one of the row, then after the calls for the row
    [active_index] is the position of that tab in [center], counted from
    0: it is a valid index, and [center[active_index]] is the cell of that
    tab. *)
Theorem active_index_designates_active_tab
        (pal : Palette) (fuel : nat) (h : Host) (screen : Screen) (g : Globals)
        (before after : list TabBarData) (tab : TabBarData) :
  center g = [] ->
  is_active tab = true ->
  Forall (fun later => is_active later = false) after ->
  let g' := accumulate pal fuel h screen g (numbered_from 1 (before ++ tab :: after)) in
  active_index g' = len before
  /\ 0 <= active_index g' < len (center g')
  /\ index (center g') (active_index g') = Ret (get_tab_cell pal tab).
Proof.
  intros Hempty Hactive Hafter. cbn zeta.
  destruct (accumulate_active_cell pal fuel h screen g before after tab
                                   Hempty Hactive Hafter) as [Hai Hidx].
  split; [exact Hai|]. split; [|exact Hidx].
  rewrite Hai, accumulate_center, Hempty. cbn [app]. unfold len.
  rewrite length_map.
  assert (List.length (numbered_from 1 (before ++ tab :: after))
          = List.length (before ++ tab :: after)) as ->.
  { rewrite <- (numbered_from_tabs (before ++ tab :: after) 1) at 2. now rewrite length_map. }
  rewrite length_app. cbn [List.length]. lia.
Qed.

Lemma active_index_designates_active_tab_witness :
  let g' := accumulate sample_palette 3 host_deep screen80 initial_globals
                       (numbered_from 1 ([tab_alpha] ++ tab_bash :: [tab_gamma])) in
  active_index g' = len [tab_alpha]
  /\ 0 <= active_index g' < len (center g')
  /\ index (center g') (active_index g') = Ret (get_tab_cell sample_palette tab_bash).
Proof.
  apply (active_index_designates_active_tab sample_palette 3 host_deep screen80
                                            initial_globals [tab_alpha] [tab_gamma] tab_bash).
  - reflexivity.
  - reflexivity.
  - repeat constructor.
Defined.

(** ** The strategist's width fits, the fallback apart *)

Ltac fit_test E :=
  match goal with
  | |- (if ?b then _ else _) = _ -> _ => destruct b eqn:E
  end.

(** X14. Whenever [center_strategy] returns a strategy other than
    Show-Active-Icon-Only, the width it returns is strictly less than
    screen.columns; when it returns Show-Active-Icon-Only, the active
    cell at full budget, which it tried just before, was not. *)
Theorem center_strategy_width_fits
        (h : Host) (g : Globals) (screen : Screen)
        (strategy : CenterStrategy) (width : Z) :
  center_strategy h g screen = Ret (strategy, width) ->
  (strategy <> SHOW_ACTIVE_NO_EXPAND -> width < columns screen)
  /\ (strategy = SHOW_ACTIVE_NO_EXPAND ->
      exists cell full,
        index (center g) (active_index g) = Ret cell
        /\ Cell.length cell h (columns screen) = Ret full
        /\ columns screen <= full
        /\ Cell.length cell h 0 = Ret width).
Proof.
  unfold center_strategy.
  destruct (mapM _ (center g)) as [full| |]; cbn [Py.bind]; try discriminate.
  fit_test E1.
  { intros [= <- <-]. apply Z.ltb_lt in E1. split; [auto | discriminate]. }
  destruct (expand_active_length h _ _ _ _) as [l2| |]; cbn [Py.bind]; try discriminate.
  fit_test E2.
  { intro H; injection H as <- <-. apply Z.ltb_lt in E2. split; [auto | discriminate]. }
  destruct (mapM _ (center g)) as [zero| |]; cbn [Py.bind]; try discriminate.
  fit_test E3.
  { intros [= <- <-]. apply Z.ltb_lt in E3. split; [auto | discriminate]. }
  destruct (index (center g) (active_index g)) as [cell| |]; cbn [Py.bind];
    try discriminate.
  destruct (Cell.length cell h (columns screen)) as [l4| |] eqn:H4; cbn [Py.bind];
    try discriminate.
  fit_test E4.
  { intro H; injection H as <- <-. apply Z.ltb_lt in E4. split; [auto | discriminate]. }
  destruct (Cell.length cell h 0) as [l5| |] eqn:H5; cbn [Py.bind]; try discriminate.
  intro H; injection H as <- <-. split; [congruence|]. intros _.
  apply Z.ltb_ge in E4. now exists cell, l4.
Qed.

Lemma center_strategy_width_fits_witness :
  (EXPAND_ALL <> SHOW_ACTIVE_NO_EXPAND -> 31 < columns screen80)
  /\ (EXPAND_ALL = SHOW_ACTIVE_NO_EXPAND ->
      exists cell full,
        index (center sample_center) (active_index sample_center) = Ret cell
        /\ Cell.length cell host_deep (columns screen80) = Ret full
        /\ columns screen80 <= full
        /\ Cell.length cell host_deep 0 = Ret 31).
Proof.
  apply (center_strategy_width_fits host_deep sample_center screen80 EXPAND_ALL 31).
  reflexivity.
Defined.

(** ** A frame that returns *)

Lemma draw_returns (c : Cell.t) (h : Host) (s : Screen) (m : Z) (r : option str) :
  Cell.text_fn c h (m - Cell.text_length_overhead c) (Cell.tab c) = Ret r ->
  exists s', Cell.draw c h s m = Ret s'.
Proof.
  intro Hr. destruct (draw_renders c h s m r Hr) as (s' & Hd & _). now exists s'.
Qed.

Lemma tab_cell_measures (pal : Palette) (h : Host) (tab : TabBarData) (m : Z) :
  title tab <> [] -> exists n, Cell.length (get_tab_cell pal tab) h m = Ret n.
Proof.
  intro Hne. destruct (tab_cell_length_outcome pal h tab m) as [Hn | Hraise]; [exact Hn|].
  exfalso. revert Hraise. unfold Cell.length, get_tab_cell, Cell.init.
  cbn [Cell.text_fn Cell.tab Cell.text_length_overhead].
  rewrite get_tab_unfold by assumption. cbn [Py.bind].
  destruct (_ <=? _); [|destruct (str_eqb _ _)]; discriminate.
Qed.

Lemma mapM_returns {A B : Type} (f : A -> outcome B) :
  forall xs, (forall a, In a xs -> exists b, f a = Ret b) -> exists bs, mapM f xs = Ret bs.
Proof.
  induction xs as [|a xs IH]; intro Hall; cbn [mapM]; [now exists []|].
  destruct (Hall a (or_introl eq_refl)) as (b & ->).
  destruct IH as (bs & ->); [intros a' Ha'; apply Hall; now right|].
  cbn [Py.bind]. now exists (b :: bs).
Qed.

Lemma expand_active_length_returns (h : Host) (cols ai : Z) :
  forall cells i acc,
    (forall c m, In c cells -> exists n, Cell.length c h m = Ret n) ->
    exists total, expand_active_length h cols ai acc (enumerate_from i cells) = Ret total.
Proof.
  induction cells as [|c cells IH]; intros i acc Hall;
    cbn [enumerate_from expand_active_length]; [now exists acc|].
  destruct (Hall c cols (or_introl eq_refl)) as (nf & Hf).
  destruct (Hall c 0 (or_introl eq_refl)) as (nz & Hz).
  destruct (i =? ai); [rewrite Hf | rewrite Hz]; cbn [Py.bind];
    apply IH; intros c' m' Hc'; apply Hall; now right.
Qed.

Lemma center_strategy_returns (h : Host) (g : Globals) (screen : Screen) (cell : Cell.t) :
  (forall c m, In c (center g) -> exists n, Cell.length c h m = Ret n) ->
  index (center g) (active_index g) = Ret cell ->
  exists strategy width, center_strategy h g screen = Ret (strategy, width).
Proof.
  intros Hall Hidx. unfold center_strategy.
  destruct (mapM_returns (fun c => Cell.length c h (columns screen)) (center g))
    as (full & ->); [intros a Ha; now apply Hall|]. cbn [Py.bind].
  destruct (_ <? columns screen); [eauto|].
  destruct (expand_active_length_returns h (columns screen) (active_index g)
              (center g) 0 (len (center g) - 1) Hall) as (l2 & Hl2).
  unfold enumerate. rewrite Hl2. cbn [Py.bind].
  destruct (_ <? columns screen); [eauto|].
  destruct (mapM_returns (fun c => Cell.length c h 0) (center g))
    as (zero & ->); [intros a Ha; now apply Hall|]. cbn [Py.bind].
  destruct (_ <? columns screen); [eauto|].
  rewrite Hidx. cbn [Py.bind].
  destruct (Hall cell (columns screen) (index_in _ _ _ Hidx)) as (l4 & ->). cbn [Py.bind].
  destruct (_ <? columns screen); [eauto|].
  destruct (Hall cell 0 (index_in _ _ _ Hidx)) as (l5 & ->). cbn [Py.bind]. eauto.
Qed.

Lemma draw_left_returns
      (pal : Palette) (fuel : nat) (h : Host) (g : Globals) (screen : Screen)
      (max_length : Z) (active : Cell.t) (tab : TabBarData) (wd : Pathlib.Path) :
  index (center g) (active_index g) = Ret active ->
  Cell.tab active = Some tab ->
  home_relative h tab = Ret wd ->
  Pathlib.parts wd <> [] ->
  (3 <= fuel)%nat ->
  exists screen', draw_left pal fuel h g screen max_length = Ret screen'.
Proof.
  intros Hidx Htab Hwd Hne Hfuel. unfold draw_left. rewrite Hidx. cbn [Py.bind].
  rewrite Htab.
  destruct (get_wd_returns_fitting fuel h tab wd (max_length - 6) Hwd Hfuel Hne)
    as (r & Hr & _).
  apply (draw_returns _ h screen max_length r). exact Hr.
Qed.

Lemma draw_right_returns
      (pal : Palette) (h : Host) (g : Globals) (screen : Screen)
      (active : Cell.t) (tab : TabBarData) :
  index (center g) (active_index g) = Ret active ->
  Cell.tab active = Some tab ->
  exists screen', draw_right pal h g screen = Ret screen'.
Proof.
  intros Hidx Htab. unfold draw_right. rewrite Hidx. cbn [Py.bind]. rewrite Htab.
  fold (time_cell pal). fold (session_cell pal (Some tab)).
  rewrite time_cell_measure. cbn [Py.bind].
  rewrite session_cell_length. cbn zeta. cbn [Py.bind].
  assert (forall s m, exists s', Cell.draw (time_cell pal) h s m = Ret s') as Htime.
  { intros s m. unfold time_cell.
    apply (draw_returns _ h s m
             (if m - 6 <? 5 then None
              else Some (strftime_HM (now_hour h) (now_minute h)))).
    cbn [Cell.init Cell.text_fn Cell.tab Cell.text_length_overhead]. unfold get_time.
    change (len (fst Cell.default_border ++ snd Cell.default_border
                     ++ Cell.default_separator ++ time_icon) + 1) with 6.
    now destruct (m - 6 <? 5). }
  assert (forall s m, exists s', Cell.draw (session_cell pal (Some tab)) h s m = Ret s')
    as Hsession.
  { intros s m. destruct (get_session_answer h (m - 6) tab) as (r & Hr & _).
    now apply (draw_returns _ h s m r). }
  destruct (negb _).
  - match goal with
    | |- context [Cell.draw (session_cell pal (Some tab)) h ?s ?m] =>
        destruct (Hsession s m) as (s2 & ->)
    end.
    cbn [Py.bind]. apply Htime.
  - cbn [Py.bind]. apply Htime.
Qed.

(** X15. A frame that returns. The host numbers the tabs of a frame from
    1 and the module starts it with an empty [center]. When every tab of
    the frame has a non-empty title, one of them is the last active one,
    HOME is set so that the path of that tab's working directory is
    found, this path has at least one part, and three units of fuel are
    given, then the call for the last tab returns and leaves [center]
    empty. *)
Theorem draw_tab_frame_returns
        (pal : Palette) (fuel : nat) (h : Host) (screen : Screen) (g : Globals)
        (earlier : list TabBarData) (last : TabBarData)
        (before after : list TabBarData) (active : TabBarData) (wd : Pathlib.Path) :
  center g = [] ->
  earlier ++ [last] = before ++ active :: after ->
  is_active active = true ->
  Forall (fun later => is_active later = false) after ->
  Forall (fun tab => title tab <> []) (earlier ++ [last]) ->
  home_relative h active = Ret wd ->
  Pathlib.parts wd <> [] ->
  (3 <= fuel)%nat ->
  exists g' screen' ret,
    draw_tab pal fuel h (accumulate pal fuel h screen g (numbered_from 1 earlier))
             screen last (1 + len earlier) true
    = (g', Ret (screen', ret))
    /\ center g' = [].
Proof.
  intros Hempty Hsplit Hactive Hafter Htitled Hwd Hparts Hfuel.
  set (ga := appended pal h (accumulate pal fuel h screen g (numbered_from 1 earlier))
                      last (1 + len earlier)).
  assert (ga = accumulate pal fuel h screen g (numbered_from 1 (earlier ++ [last]))) as Hga.
  { subst ga. rewrite numbered_from_app. cbn [numbered_from].
    now rewrite accumulate_snoc. }
  assert (center ga = map (get_tab_cell pal) (earlier ++ [last])) as Hcenter.
  { rewrite Hga, accumulate_center, Hempty. cbn [app].
    now rewrite <- (map_map fst (get_tab_cell pal)), numbered_from_tabs. }
  assert (index (center ga) (active_index ga) = Ret (get_tab_cell pal active)) as Hidx.
  { rewrite Hga, Hsplit.
    now destruct (accumulate_active_cell pal fuel h screen g before after active
                                         Hempty Hactive Hafter). }
  assert (forall c m, In c (center ga) -> exists n, Cell.length c h m = Ret n) as Hall.
  { intros c m Hc. rewrite Hcenter in Hc. apply in_map_iff in Hc as (tab & <- & Hin).
    apply tab_cell_measures. rewrite Forall_forall in Htitled. now apply Htitled. }
  destruct (center_strategy_returns h ga screen _ Hall Hidx) as (strategy & width & Hcs).
  destruct (draw_left_returns pal fuel h ga screen
              (center_start_position (columns screen) width - 1)
              (get_tab_cell pal active) active wd Hidx eq_refl Hwd Hparts Hfuel)
    as (sl & Hleft).
  assert (columns sl = columns screen) as Hcl.
  { unfold draw_left in Hleft. rewrite Hidx in Hleft. cbn [Py.bind] in Hleft.
    now destruct (written_on_cell_draw _ _ _ _ _ Hleft) as (? & _ & _ & ?). }
  assert (center ga <> []) as Hne.
  { rewrite Hcenter. destruct earlier; discriminate. }
  assert (Forall built (center ga)) as Hb.
  { rewrite Hcenter. clear. induction (earlier ++ [last]); cbn [map]; constructor;
      [apply init_built | assumption]. }
  destruct (draw_center_measured h ga screen
              (set_x sl (center_start_position (columns screen) width))
              strategy width Hne Hb Hcl Hcs) as (sc & Hdc & _).
  destruct (draw_right_returns pal h ga (screen_draw sc (lit " "))
                               (get_tab_cell pal active) active Hidx eq_refl)
    as (sr & Hdr).
  exists (mkGlobals [] (active_index ga) (timer_id ga)), sr, (x (cursor sr)).
  split; [|reflexivity].
  unfold draw_tab. fold ga. unfold render_bar. rewrite Hcs. cbn [Py.bind].
  rewrite Hleft. cbn [Py.bind]. rewrite Hdc. cbn [Py.bind]. now rewrite Hdr.
Qed.

Lemma draw_tab_frame_returns_witness :
  exists g' screen' ret,
    draw_tab sample_palette 3 host_deep
             (accumulate sample_palette 3 host_deep screen80 initial_globals
                         (numbered_from 1 [tab_alpha; tab_bash]))
             screen80 tab_gamma (1 + len [tab_alpha; tab_bash]) true
    = (g', Ret (screen', ret))
    /\ center g' = [].
Proof.
  apply (draw_tab_frame_returns
           sample_palette 3 host_deep screen80 initial_globals
           [tab_alpha; tab_bash] tab_gamma [tab_alpha] [tab_gamma] tab_bash
           (Pathlib.mkPath [] [lit "~"; lit "a"; lit "b"; lit "c"; lit "d"])).
  - reflexivity.
  - reflexivity.
  - reflexivity.
  - repeat constructor.
  - repeat constructor; discriminate.
  - reflexivity.
  - discriminate.
  - lia.
Defined.

(** ** Without HOME *)

(** X16. With the environment variable HOME unset, a frame-ending call
    whose strategist returns does not draw the bar: the left section
    raises TypeError when it builds the path of the home directory, the
    call raises it, and [center] keeps the cells of the frame. *)
Theorem draw_tab_without_home
        (pal : Palette) (fuel : nat) (h : Host) (g : Globals) (screen : Screen)
        (tab : TabBarData) (index : Z) (active : Cell.t) (active_tab : TabBarData)
        (strategy : CenterStrategy) (width : Z) :
  let ga := appended pal h g tab index in
  HOME h = None ->
  center_strategy h ga screen = Ret (strategy, width) ->
  Py.index (center ga) (active_index ga) = Ret active ->
  Cell.tab active = Some active_tab ->
  draw_tab pal fuel h g screen tab index true = (ga, Raise TypeError)
  /\ center ga = center g ++ [get_tab_cell pal tab].
Proof.
  cbn zeta. intros Hhome Hcs Hidx Htab. split; [|reflexivity].
  unfold draw_tab, render_bar. rewrite Hcs. cbn [Py.bind].
  unfold draw_left. rewrite Hidx. cbn [Py.bind]. rewrite Htab.
  unfold Cell.draw, Cell.init. cbn [Cell.text_fn Cell.tab Cell.text_length_overhead].
  unfold get_wd. cbn [attr Py.bind]. unfold home_relative. rewrite Hhome.
  reflexivity.
Qed.

Lemma draw_tab_without_home_witness :
  let h := mkHost None (fun _ => lit "/home/u") (fun _ => lit "bash") 9 5 7 in
  draw_tab sample_palette 3 h sample_before screen80 tab_gamma 3 true
  = (appended sample_palette h sample_before tab_gamma 3, Raise TypeError)
  /\ center (appended sample_palette h sample_before tab_gamma 3)
     = center sample_before ++ [get_tab_cell sample_palette tab_gamma].
Proof.
  cbn zeta.
  apply (draw_tab_without_home
           sample_palette 3
           (mkHost None (fun _ => lit "/home/u") (fun _ => lit "bash") 9 5 7)
           sample_before screen80 tab_gamma 3
           (get_tab_cell sample_palette tab_bash) tab_bash EXPAND_ALL 31);
    reflexivity.
Defined.

(** ** get_session, tab or no tab *)

(** X1. [get_session] always returns for a tab, and never the empty
    string: the name in full when it fits max_size ([none] standing for an
    empty session name), its first three characters when it does not fit
    and max_size >= 3, hidden (None) otherwise. A string it returns is
    never longer than max_size. Called without a tab, as a Cell built with
    the default [tab] would call it, it raises AttributeError. *)
Theorem get_session_cases (h : Host) (max_size : Z) (tab : TabBarData) :
  (exists r,
      get_session h max_size (Some tab) = Ret r
      /\ match r with
         | Some s =>
             s <> [] /\ len s <= max_size
             /\ (len (shown_session tab) <= max_size -> s = shown_session tab)
             /\ (max_size < len (shown_session tab) ->
                 s = firstn 3 (shown_session tab) /\ len s = 3)
         | None => max_size < 3 /\ max_size < len (shown_session tab)
         end)
  /\ get_session h max_size None = Raise AttributeError.
Proof.
  split; [|reflexivity].
  destruct (get_session_answer h max_size tab) as (r & Hr & Hcases).
  exists r. split; [exact Hr | exact Hcases].
Qed.

(** ** draw_tab: the column of the center block *)




(** On that frame the columns are these: 16 glyphs of the left section,
    the 31 glyphs of the center block from column 24 = (80 - 31) // 2 on,
    the space, and the right section up to column 79. *)
Example sample_frame_columns :
  glyph_columns sample_flushed = run 0 16 ++ run 24 31 ++ [55] ++ run 56 24.
Proof. vm_compute. reflexivity. Qed.
